(** * EZLynxFormAutomation: the human-in-the-loop form-filling orchestrator

    A shallow embedding of [src/scrapybara_automation.py] (class
    [EZLynxFormAutomation]) and the properties of its status machine,
    its marker parsing and its human-input hand-over; then of the
    handlers of [src/app.py] that drive it, of the pure parts of the
    desktop adapter [src/async_scrapybara_ubuntu_computer.py] and of the
    email reader [src/simple_eml_parser.py].

    Modelling conventions.
    - A Python [str] is a [string]; a character is a code point below 256,
      so that [str.isspace] is the Latin-1 part of Python's table.
    - [self] is the record [Session]; every method is a computation in the
      monad [M], which threads the session, propagates a raised exception
      to the enclosing [try]/[except], and writes down every assignment to
      [self.status] in the order it is executed.
    - The remote desktop, the agent runtime and the loaded JSON files are
      the environment: each call to them is answered by an outcome value
      or an oracle that the operation receives as an argument.
    - [log] appends to [self.log_entries].  The time stamp of an entry (the
      event-loop clock) and the files the class only ever writes
      ([automation_log.json], [instance_id.txt]) are not read back by any
      method and are left out; writing them is taken not to fail. *)

From Stdlib Require Import String Ascii List Bool Arith ZArith Lia.
Import ListNotations.
Open Scope string_scope.

Set Warnings "-register-all".

(** ** Python strings *)

Module PyStr.

(** [str.isspace] on one character, for code points below 256. *)
Definition is_space (c : ascii) : bool :=
  let n := nat_of_ascii c in
  (Nat.leb 9 n && Nat.leb n 13) || (Nat.leb 28 n && Nat.leb n 32)
  || Nat.eqb n 133 || Nat.eqb n 160.

Fixpoint lstrip (s : string) : string :=
  match s with
  | String c s' => if is_space c then lstrip s' else s
  | EmptyString => EmptyString
  end.

Fixpoint rstrip (s : string) : string :=
  match s with
  | String c s' =>
      match rstrip s' with
      | EmptyString => if is_space c then EmptyString else String c EmptyString
      | r => String c r
      end
  | EmptyString => EmptyString
  end.

(** [s.strip()] *)
Definition strip (s : string) : string := rstrip (lstrip s).

(** [sep in s] *)
Fixpoint contains (sep s : string) : bool :=
  prefix sep s ||
  match s with
  | String _ s' => contains sep s'
  | EmptyString => false
  end.

(** [s.split(sep)] for a non-empty [sep] (Python raises [ValueError] on
    an empty one; the class only splits on two non-empty literals).
    [skip] counts the characters of a separator still to be dropped and
    [cur] is the piece being read. *)
Fixpoint split_from (sep s : string) (skip : nat) (cur : string) : list string :=
  match s with
  | EmptyString => [cur]
  | String c s' =>
      match skip with
      | S k => split_from sep s' k cur
      | O =>
          if prefix sep s
          then cur :: split_from sep s' (String.length sep - 1) EmptyString
          else split_from sep s' 0 (cur ++ String c EmptyString)
      end
  end.

Definition split (sep s : string) : list string := split_from sep s 0 EmptyString.

(** [sep.join(l)] *)
Fixpoint join (sep : string) (l : list string) : string :=
  match l with
  | [] => EmptyString
  | [x] => x
  | x :: l' => x ++ sep ++ join sep l'
  end.

(** [sep] occurs in [s] at offset [i]. *)
Fixpoint occurs_at (sep s : string) (i : nat) : bool :=
  match i, s with
  | O, _ => prefix sep s
  | S j, String _ s' => occurs_at sep s' j
  | S _, EmptyString => false
  end.

End PyStr.

(** ** Python values, dictionaries and exceptions *)

Module Py.

(** What [str(e)] shows of a raised exception, with its class. *)
Record Exc := { exc_class : string; exc_str : string }.

Definition Exception (msg : string) : Exc :=
  {| exc_class := "Exception"; exc_str := msg |}.
Definition IndexError : Exc :=
  {| exc_class := "IndexError"; exc_str := "list index out of range" |}.
Definition KeyError (k : string) : Exc :=
  {| exc_class := "KeyError"; exc_str := "'" ++ k ++ "'" |}.
Definition TypeError (msg : string) : Exc :=
  {| exc_class := "TypeError"; exc_str := msg |}.

(** The JSON-like values found in the items of a conversation. *)
Inductive Val :=
| PNone
| PBool (b : bool)
| PInt (z : Z)
| PStr (s : string)
| PList (l : list Val)
| PDict (d : list (string * Val)).

(** Truth value of [v] in a condition. *)
Definition truthy (v : Val) : bool :=
  match v with
  | PNone => false
  | PBool b => b
  | PInt z => negb (Z.eqb z 0)
  | PStr s => negb (String.eqb s "")
  | PList l => match l with [] => false | _ => true end
  | PDict d => match d with [] => false | _ => true end
  end.

Section Dict.
Variable V : Type.

(** A [dict] keeps its keys in insertion order. *)
Definition dict := list (string * V).

(** [d.get(k)] *)
Fixpoint get (d : dict) (k : string) : option V :=
  match d with
  | [] => None
  | (k', v) :: d' => if String.eqb k' k then Some v else get d' k
  end.

(** [d[k] = v]: an existing key keeps its place, a new one goes last. *)
Fixpoint set (d : dict) (k : string) (v : V) : dict :=
  match d with
  | [] => [(k, v)]
  | (k', v') :: d' =>
      if String.eqb k' k then (k', v) :: d' else (k', v') :: set d' k v
  end.

(** [del d[k]]; [None] stands for the [KeyError]. *)
Fixpoint del (d : dict) (k : string) : option dict :=
  match d with
  | [] => None
  | (k', v') :: d' =>
      if String.eqb k' k then Some d'
      else option_map (cons (k', v')) (del d' k)
  end.

(** Keys are unique, as in every Python [dict]. *)
Fixpoint wf (d : dict) : bool :=
  match d with
  | [] => true
  | (k, _) :: d' => match get d' k with None => wf d' | Some _ => false end
  end.

End Dict.
Arguments get {V} d k.
Arguments set {V} d k v.
Arguments del {V} d k.
Arguments wf {V} d.

(** [list(d.keys())] *)
Definition keys {V} (d : dict V) : list string := map fst d.

(** [del v[k]] for a string key [k], on any value. *)
Definition del_item (v : Val) (k : string) : Exc + Val :=
  match v with
  | PDict d =>
      match del d k with
      | Some d' => inr (PDict d')
      | None => inl (KeyError k)
      end
  | PList _ => inl (TypeError "list indices must be integers or slices, not str")
  | PStr _ => inl (TypeError "'str' object doesn't support item deletion")
  | PInt _ => inl (TypeError "'int' object does not support item deletion")
  | PBool _ => inl (TypeError "'bool' object does not support item deletion")
  | PNone => inl (TypeError "'NoneType' object does not support item deletion")
  end.

(** [d.get(k)] read in a condition or bound to a name: a missing key is [None]. *)
Definition get_val (d : dict Val) (k : string) : Val :=
  match get d k with Some v => v | None => PNone end.

(** [not s] for an optional string: [None] and the empty string are false. *)
Definition falsy (o : option string) : bool :=
  match o with
  | None => true
  | Some s => String.eqb s ""
  end.

Definition str_of (o : option string) : string :=
  match o with Some s => s | None => "None" end.

End Py.

(** ** The environment: remote desktop and agent runtime *)

(** [AsyncScrapybaraUbuntu]: the class reads of it whether the object
    exists and the id of its instance. *)
Record Computer := { instance : option string }.

(** How far lines 127-138 of [initialize_scrapybara] get. *)
Inductive InitOutcome :=
| ctor_raises (e : Py.Exc)
    (* AsyncScrapybaraUbuntu(...) raises: self.computer is not assigned *)
| initialize_raises (inst : option string) (e : Py.Exc)
    (* self.computer is assigned, computer.initialize() raises *)
| id_write_raises (id : string) (e : Py.Exc)
    (* the instance is up, writing instance_id.txt raises *)
| init_ok (id : string).

(** An item of [result.to_input_list()]. *)
Abbreviation Item := (Py.dict Py.Val).

Record RunResult := {
  final_output : string;
  to_input_list : list Item
}.

Inductive RunInput :=
| prompt_input (prompt : string)
| list_input (items : list Item).

Inductive RunOutcome :=
| run_raises (e : Py.Exc)
| run_returns (r : RunResult).

Record Agent := { name : string; instructions : string }.

(** [Runner.run(agent, input, max_turns=n)], as the environment answers it. *)
Definition Runner := Agent -> RunInput -> nat -> RunOutcome.

(** ** The session *)

Inductive Status :=
| initialized
| initializing
| logging_in
| logged_in
| filling_form
| waiting_for_input
| form_filled
| completed
| error.

Definition Status_eqb (a b : Status) : bool :=
  match a, b with
  | initialized, initialized | initializing, initializing
  | logging_in, logging_in | logged_in, logged_in
  | filling_form, filling_form | waiting_for_input, waiting_for_input
  | form_filled, form_filled | completed, completed | error, error => true
  | _, _ => false
  end.

Module Level.
Inductive t := info | warn | error.
End Level.

Record LogEntry := { level : Level.t; message : string }.

(** The attributes of [EZLynxFormAutomation] that its methods read or write. *)
Record Session := {
  credentials : Py.dict string;
  email_content : Py.dict string;
  instance_id : option string;
  status : Status;
  log_entries : list LogEntry;
  computer : option Computer;
  require_human_input : bool;
  human_input_prompt : string;
  human_input_field : string;
  human_inputs_collected : Py.dict string
}.

Definition with_status (st : Status) (s : Session) : Session :=
  {| credentials := credentials s; email_content := email_content s;
     instance_id := instance_id s; status := st;
     log_entries := log_entries s; computer := computer s;
     require_human_input := require_human_input s;
     human_input_prompt := human_input_prompt s;
     human_input_field := human_input_field s;
     human_inputs_collected := human_inputs_collected s |}.

Definition with_log_entries (l : list LogEntry) (s : Session) : Session :=
  {| credentials := credentials s; email_content := email_content s;
     instance_id := instance_id s; status := status s;
     log_entries := l; computer := computer s;
     require_human_input := require_human_input s;
     human_input_prompt := human_input_prompt s;
     human_input_field := human_input_field s;
     human_inputs_collected := human_inputs_collected s |}.

Definition with_computer (c : option Computer) (s : Session) : Session :=
  {| credentials := credentials s; email_content := email_content s;
     instance_id := instance_id s; status := status s;
     log_entries := log_entries s; computer := c;
     require_human_input := require_human_input s;
     human_input_prompt := human_input_prompt s;
     human_input_field := human_input_field s;
     human_inputs_collected := human_inputs_collected s |}.

Definition with_require_human_input (b : bool) (s : Session) : Session :=
  {| credentials := credentials s; email_content := email_content s;
     instance_id := instance_id s; status := status s;
     log_entries := log_entries s; computer := computer s;
     require_human_input := b;
     human_input_prompt := human_input_prompt s;
     human_input_field := human_input_field s;
     human_inputs_collected := human_inputs_collected s |}.

Definition with_human_input_prompt (p : string) (s : Session) : Session :=
  {| credentials := credentials s; email_content := email_content s;
     instance_id := instance_id s; status := status s;
     log_entries := log_entries s; computer := computer s;
     require_human_input := require_human_input s;
     human_input_prompt := p;
     human_input_field := human_input_field s;
     human_inputs_collected := human_inputs_collected s |}.

Definition with_human_input_field (f : string) (s : Session) : Session :=
  {| credentials := credentials s; email_content := email_content s;
     instance_id := instance_id s; status := status s;
     log_entries := log_entries s; computer := computer s;
     require_human_input := require_human_input s;
     human_input_prompt := human_input_prompt s;
     human_input_field := f;
     human_inputs_collected := human_inputs_collected s |}.

Definition with_human_inputs_collected (d : Py.dict string) (s : Session) : Session :=
  {| credentials := credentials s; email_content := email_content s;
     instance_id := instance_id s; status := status s;
     log_entries := log_entries s; computer := computer s;
     require_human_input := require_human_input s;
     human_input_prompt := human_input_prompt s;
     human_input_field := human_input_field s;
     human_inputs_collected := d |}.

(** ** The method monad

    A method body runs on the session, may raise, and leaves the list of
    the values it assigned to [self.status], oldest first. *)

Inductive Result (A : Type) :=
| ok (a : A)
| raised (e : Py.Exc).
Arguments ok {A} a.
Arguments raised {A} e.

Definition M (A : Type) : Type := Session -> Result A * Session * list Status.

Definition ret {A} (a : A) : M A := fun s => (ok a, s, []).

Definition bind {A B} (m : M A) (f : A -> M B) : M B :=
  fun s =>
    match m s with
    | (ok a, s1, t1) => let '(r, s2, t2) := f a s1 in (r, s2, (t1 ++ t2)%list)
    | (raised e, s1, t1) => (raised e, s1, t1)
    end.

Notation "x <- c ;; k" := (bind c (fun x => k))
  (at level 61, c at next level, right associativity).
Notation "c ;; k" := (bind c (fun _ => k))
  (at level 61, right associativity).

(** [raise e] *)
Definition raise {A} (e : Py.Exc) : M A := fun s => (raised e, s, []).

(** [try: body / except Exception as e: handler] *)
Definition try_except {A} (body : M A) (handler : Py.Exc -> M A) : M A :=
  fun s =>
    match body s with
    | (raised e, s1, t1) => let '(r, s2, t2) := handler e s1 in (r, s2, (t1 ++ t2)%list)
    | done => done
    end.

Definition get_self : M Session := fun s => (ok s, s, []).

Definition update (f : Session -> Session) : M unit := fun s => (ok tt, f s, []).

(** [self.status = st] *)
Definition set_status (st : Status) : M unit :=
  fun s => (ok tt, with_status st s, [st]).

(** [self.log(message, level)], lines 87-105 *)
Definition log (message : string) (level : Level.t) : M unit :=
  update (fun s =>
    with_log_entries (log_entries s ++ [{| level := level; message := message |}])%list s).

(** [await Runner.run(agent, input, max_turns=n)] *)
Definition await_run (run : Runner) (a : Agent) (i : RunInput) (n : nat) : M RunResult :=
  match run a i n with
  | run_raises e => raise e
  | run_returns r => ret r
  end.

(** [l[i]] *)
Definition index {A} (l : list A) (i : nat) : M A :=
  match nth_error l i with
  | Some a => ret a
  | None => raise Py.IndexError
  end.

(** [l[-1]] and [l[-1] = x] *)
Definition index_last {A} (l : list A) : M A :=
  match rev l with
  | a :: _ => ret a
  | [] => raise Py.IndexError
  end.

Definition set_last {A} (l : list A) (x : A) : list A := (removelast l ++ [x])%list.

Definition result_of {A} (r : Result A * Session * list Status) : Result A := fst (fst r).
Definition session_of {A} (r : Result A * Session * list Status) : Session := snd (fst r).
Definition trace_of {A} (r : Result A * Session * list Status) : list Status := snd r.

(** ** Construction, lines 33-85 *)

(** What [_load_data] finds in the two JSON files.  The service writes
    them as objects with string values ([app.py], [simple_eml_parser.py]);
    a missing file is the empty object. *)
Inductive LoadOutcome :=
| loaded (credentials email_content : Py.dict string)
| load_raises (e : Py.Exc).

Definition blank : Session :=
  {| credentials := []; email_content := []; instance_id := None;
     status := initialized; log_entries := []; computer := None;
     require_human_input := false; human_input_prompt := "";
     human_input_field := ""; human_inputs_collected := [] |}.

Definition with_data (c e : Py.dict string) (s : Session) : Session :=
  {| credentials := c; email_content := e;
     instance_id := instance_id s; status := status s;
     log_entries := log_entries s; computer := computer s;
     require_human_input := require_human_input s;
     human_input_prompt := human_input_prompt s;
     human_input_field := human_input_field s;
     human_inputs_collected := human_inputs_collected s |}.

Definition _load_data (l : LoadOutcome) : M unit :=
  try_except
    (match l with
     | loaded c e => update (with_data c e)
     | load_raises e => raise e
     end)
    (fun e =>
       log ("Error loading data: " ++ Py.exc_str e) Level.error ;;
       update (with_data [] [])).

(** [EZLynxFormAutomation(...)] *)
Definition __init__ (l : LoadOutcome) : Session := session_of (_load_data l blank).

(** ** Prompts *)

Definition nl : string := String (ascii_of_nat 10) EmptyString.
Definition dq : string := String (ascii_of_nat 34) EmptyString.

(** The literal the agent is told to end its answer with. *)
Definition marker : string := "HUMAN_INPUT_REQUIRED:".

(** Lines 173-182. *)
Definition login_prompt (url username password : string) : string :=
  nl
  ++ "            Navigate to the following web page:" ++ nl
  ++ "            URL: " ++ url ++ nl
  ++ nl
  ++ "            Log in using the following credentials:" ++ nl
  ++ "                Username: " ++ username ++ nl
  ++ "                Password: " ++ password ++ nl
  ++ "            " ++ nl
  ++ "            Wait for the page to load after login." ++ nl
  ++ "            ".

(** Lines 237-254. *)
Definition initial_prompt (email_body : string) : string :=
  nl
  ++ "            You are now logged into EZLynx. Your task is to fill out a new applicant form using information from this email:" ++ nl
  ++ nl
  ++ "            " ++ email_body ++ nl
  ++ nl
  ++ "            Follow these steps:" ++ nl
  ++ "            1. Look for a " ++ dq ++ "New Application" ++ dq ++ " or " ++ dq ++ "Add Applicant" ++ dq ++ " button and click it" ++ nl
  ++ "            2. Fill out the form fields with information from the email" ++ nl
  ++ "            3. Look for business name, address, industry, and all other relevant information in the email" ++ nl
  ++ "            4. Leave non-required fields empty if the information is not available in the email" ++ nl
  ++ "            5. If a REQUIRED field does not have corresponding information in the email, STOP and ask for human input" ++ nl
  ++ "               by ending your response with exactly " ++ dq ++ "HUMAN_INPUT_REQUIRED: [field name] - [brief explanation]" ++ dq ++ nl
  ++ "            6. Only submit the form when all required fields are filled" ++ nl
  ++ "            7. If you need human input, take a screenshot first so the human can see the form" ++ nl
  ++ "            8. Required fields are usually marked with an asterisk (" ++ "*" ++ ") but if you need human input for any required field that is not marked with an asterisk, STOP and ask for human input as described" ++ nl
  ++ "            " ++ nl
  ++ "            Think step by step and be methodical in filling out the form." ++ nl
  ++ "            ".

(** Lines 352-369. *)
Definition continuation_prompt (email_body human_inputs_text : string) : string :=
  nl
  ++ "            Continue filling out the EZLynx form. You were previously working with this email content:" ++ nl
  ++ "            " ++ nl
  ++ "            " ++ email_body ++ nl
  ++ "            " ++ nl
  ++ "            You have received additional information from a human for fields that weren't in the email:" ++ nl
  ++ "            " ++ nl
  ++ "            " ++ human_inputs_text ++ nl
  ++ "            " ++ nl
  ++ "            Please continue filling out the form with this new information. Remember:" ++ nl
  ++ "            1. Leave non-required fields empty if the information is not available" ++ nl
  ++ "            2. If you encounter another REQUIRED field without corresponding information, STOP and ask for human input" ++ nl
  ++ "               by ending your response with exactly " ++ dq ++ "HUMAN_INPUT_REQUIRED: [field name] - [brief explanation]" ++ dq ++ nl
  ++ "            3. Only submit the form when all required fields are filled" ++ nl
  ++ "            4. Take a screenshot first if you need more human input so the human can see the form" ++ nl
  ++ "            5. Required fields are usually marked with an asterisk (" ++ "*" ++ ") but if you need human input for any required field that is not marked with an asterisk, STOP and ask for human input as described" ++ nl
  ++ "            Continue where you left off with the form." ++ nl
  ++ "            ".


Definition login_agent : Agent :=
  {| name := "EZLynx Login Agent";
     instructions := "You are a helpful agent that logs in to a website accurately. Be precise in your interactions." |}.

Definition form_agent : Agent :=
  {| name := "EZLynx Form Filling Agent";
     instructions := "You are a helpful agent that accurately fills out forms with provided information. Ask for human help when required fields don't have corresponding info. Leave non-required fields empty if info is not available." |}.

(** ** The methods *)

(** What [fill_applicant_form], [provide_human_input] and [run_automation]
    return: a boolean or one of three dictionaries. *)
Inductive FormResult :=
| RBool (b : bool)
| RRequiresInput (field prompt : string)
    (* {"success": False, "requires_input": True, "field": .., "prompt": ..} *)
| RMessage (success : bool) (message : string)
    (* {"success": .., "message": ..} *)
| RWaiting (human_input : FormResult).
    (* {"success": True, "status": "waiting_for_input", "human_input": ..} *)

(** [initialize_scrapybara], lines 120-154 *)
Definition initialize_scrapybara (env : InitOutcome) : M bool :=
  log "Initializing Scrapybara instance..." Level.info ;;
  set_status initializing ;;
  try_except
    (match env with
     | ctor_raises e => raise e
     | initialize_raises inst e =>
         update (with_computer (Some {| instance := inst |})) ;;
         raise e
     | id_write_raises id e =>
         update (with_computer (Some {| instance := Some id |})) ;;
         log ("Using Scrapybara Instance ID: " ++ id) Level.info ;;
         raise e
     | init_ok id =>
         update (with_computer (Some {| instance := Some id |})) ;;
         log ("Using Scrapybara Instance ID: " ++ id) Level.info ;;
         set_status initialized ;;
         log "Scrapybara instance initialized successfully" Level.info ;;
         ret true
     end)
    (fun e =>
       set_status error ;;
       log ("Error initializing Scrapybara: " ++ Py.exc_str e) Level.error ;;
       ret false).

(** [login_with_agent], lines 156-216 *)
Definition login_with_agent (run : Runner) : M bool :=
  s <- get_self ;;
  match computer s with
  | None =>
      log "Scrapybara instance not initialized" Level.error ;;
      ret false
  | Some _ =>
      try_except
        (let url := Py.get (credentials s) "destination_url" in
         let username := Py.get (credentials s) "username" in
         let password := Py.get (credentials s) "password" in
         if Py.falsy url || Py.falsy username || Py.falsy password then
           log "Missing login credentials" Level.error ;;
           ret false
         else
           let prompt :=
             login_prompt (Py.str_of url) (Py.str_of username) (Py.str_of password) in
           log "Starting login process with OpenAI Agent..." Level.info ;;
           set_status logging_in ;;
           log "Agent initialized, starting login process..." Level.info ;;
           result <- await_run run login_agent (prompt_input prompt) 100 ;;
           log ("Agent completed login: " ++ final_output result) Level.info ;;
           set_status logged_in ;;
           log "Login successful" Level.info ;;
           ret true)
        (fun e =>
           set_status error ;;
           log ("Error during login with agent: " ++ Py.exc_str e) Level.error ;;
           ret false)
  end.

(** Lines 277-283, and again 384-390: a result whose last item carries
    pending safety checks is sent back with the checks acknowledged.
    [vals] is the object stored under ["pending_safety_checks"], so what
    [del] removes from it is gone from the item as well. *)
Definition retry_safety_checks (run : Runner) (result : RunResult) : M RunResult :=
  let new_inputs := to_input_list result in
  last <- index_last new_inputs ;;
  if Py.truthy (Py.get_val last "pending_safety_checks") then
    log "Safety checks failed, retrying..." Level.warn ;;
    let vals := Py.get_val last "pending_safety_checks" in
    match Py.del_item vals "pending_safety_checks" with
    | inl e => raise e
    | inr vals' =>
        let last' :=
          Py.set (Py.set last "pending_safety_checks" vals')
                 "acknowledged_safety_checks" vals' in
        await_run run form_agent (list_input (set_last new_inputs last')) 500
    end
  else ret result.

(** Lines 288-290, and again 395-397. *)
Definition parse_input_request (final_output : string) : M (string * string) :=
  piece <- index (PyStr.split marker final_output) 1 ;;
  let input_request := PyStr.strip piece in
  first <- index (PyStr.split "-" input_request) 0 ;;
  let field_name := PyStr.strip first in
  let explanation :=
    PyStr.strip (PyStr.join "-" (tl (PyStr.split "-" input_request))) in
  ret (field_name, explanation).

(** Lines 287-312, and again 394-419 with another screenshot name. *)
Definition request_human_input (screenshot : string) (final_output : string) : M FormResult :=
  p <- parse_input_request final_output ;;
  let field_name := fst p in
  let explanation := snd p in
  log ("Screenshot saved to screenshots/" ++ screenshot) Level.info ;;
  log ("Human input required for field: " ++ field_name) Level.warn ;;
  log ("Explanation: " ++ explanation) Level.warn ;;
  update (with_require_human_input true) ;;
  let prompt := "Please provide value for: " ++ field_name ++ nl ++ explanation in
  update (with_human_input_prompt prompt) ;;
  update (with_human_input_field field_name) ;;
  set_status waiting_for_input ;;
  ret (RRequiresInput field_name prompt).

(** [self.email_content.get("body", "")] *)
Definition email_body_of (s : Session) : string :=
  match Py.get (email_content s) "body" with
  | Some b => b
  | None => ""
  end.

(** [fill_applicant_form], lines 218-323 *)
Definition fill_applicant_form (run : Runner) : M FormResult :=
  s <- get_self ;;
  match computer s with
  | None =>
      log "Scrapybara instance not initialized" Level.error ;;
      ret (RBool false)
  | Some _ =>
      if negb (Status_eqb (status s) logged_in) then
        log "Must be logged in before filling form" Level.error ;;
        ret (RBool false)
      else
        try_except
          (let email_body := email_body_of s in
           if String.eqb email_body "" then
             log "No email content available for form filling" Level.error ;;
             ret (RBool false)
           else
             log "Starting form filling process with OpenAI Agent..." Level.info ;;
             set_status filling_form ;;
             log "Agent initialized, starting form filling process..." Level.info ;;
             result <- await_run run form_agent (prompt_input (initial_prompt email_body)) 500 ;;
             result <- retry_safety_checks run result ;;
             if PyStr.contains marker (final_output result) then
               request_human_input "form_input_needed.png" (final_output result)
             else
               set_status form_filled ;;
               log "Form filled successfully" Level.info ;;
               log ("Agent output: " ++ final_output result) Level.info ;;
               ret (RBool true))
          (fun e =>
             set_status error ;;
             log ("Error during form filling with agent: " ++ Py.exc_str e) Level.error ;;
             ret (RBool false))
  end.

(** [human_inputs_text], line 350 *)
Definition human_inputs_text (collected : Py.dict string) : string :=
  PyStr.join nl (map (fun fv => fst fv ++ ": " ++ snd fv) collected).

(** Lines 336-369 of [provide_human_input]: the value is stored, the
    request flag cleared, and the instruction for the agent built. *)
Definition store_human_input (input_value : string) : M string :=
  s <- get_self ;;
  update (with_human_inputs_collected
            (Py.set (human_inputs_collected s) (human_input_field s) input_value)) ;;
  log ("Received human input for " ++ human_input_field s ++ ": " ++ input_value)
      Level.info ;;
  update (with_require_human_input false) ;;
  set_status filling_form ;;
  s' <- get_self ;;
  ret (continuation_prompt (email_body_of s')
         (human_inputs_text (human_inputs_collected s'))).

(** Lines 371-425 of [provide_human_input]: the agent is resumed. *)
Definition continue_form_filling (run : Runner) (continuation : string) : M FormResult :=
  log "Agent continuing form filling with human input..." Level.info ;;
  result <- await_run run form_agent (prompt_input continuation) 500 ;;
  result <- retry_safety_checks run result ;;
  if PyStr.contains marker (final_output result) then
    request_human_input "form_input_needed_again.png" (final_output result)
  else
    set_status form_filled ;;
    log "Form filled successfully with human input" Level.info ;;
    log ("Agent output: " ++ final_output result) Level.info ;;
    ret (RMessage true "Form filled successfully").

(** Lines 427-430 of [provide_human_input]: the [except] clause. *)
Definition continuation_failed (e : Py.Exc) : M FormResult :=
  set_status error ;;
  log ("Error during form filling with human input: " ++ Py.exc_str e) Level.error ;;
  ret (RMessage false (Py.exc_str e)).

(** [provide_human_input], lines 325-430 *)
Definition provide_human_input (input_value : string) (run : Runner) : M FormResult :=
  s <- get_self ;;
  match computer s with
  | None =>
      log "Scrapybara instance not initialized" Level.error ;;
      ret (RBool false)
  | Some _ =>
      if negb (Status_eqb (status s) waiting_for_input) then
        log "Not waiting for human input" Level.error ;;
        ret (RBool false)
      else
        try_except
          (continuation <- store_human_input input_value ;;
           continue_form_filling run continuation)
          continuation_failed
  end.

(** [run_automation], lines 432-465 *)
Definition run_automation (env : InitOutcome) (run : Runner) : M FormResult :=
  try_except
    (init_success <- initialize_scrapybara env ;;
     if negb init_success then raise (Py.Exception "Failed to initialize Scrapybara")
     else
       login_success <- login_with_agent run ;;
       if negb login_success then raise (Py.Exception "Failed to login to the website")
       else
         form_result <- fill_applicant_form run ;;
         match form_result with
         | RRequiresInput _ _ =>
             log "Automation paused waiting for human input" Level.info ;;
             ret (RWaiting form_result)
         | RBool true =>
             set_status completed ;;
             log "Automation process completed successfully" Level.info ;;
             ret (RMessage true "Automation completed successfully")
         | _ => ret (RMessage false "Form filling failed")
         end)
    (fun e =>
       set_status error ;;
       log ("Error in automation process: " ++ Py.exc_str e) Level.error ;;
       ret (RMessage false (Py.exc_str e))).

(** [cleanup], lines 467-475; [stop] is how [computer.stop()] ends. *)
Definition cleanup (stop : option Py.Exc) : M unit :=
  s <- get_self ;;
  match computer s with
  | None => ret tt
  | Some _ =>
      try_except
        (log "Stopping Scrapybara instance..." Level.info ;;
         match stop with
         | Some e => raise e
         | None => log "Scrapybara instance stopped" Level.info
         end)
        (fun e => log ("Error stopping Scrapybara: " ++ Py.exc_str e) Level.error)
  end.

(** ** Sequences of operations *)

Inductive Op :=
| Initialize (env : InitOutcome)
| Login (run : Runner)
| FillForm (run : Runner)
| ProvideHumanInput (input_value : string) (run : Runner)
| RunFull (env : InitOutcome) (run : Runner)
| Cleanup (stop : option Py.Exc).

(** One operation: the session it leaves and the status values it assigned. *)
Definition step (o : Op) (s : Session) : Session * list Status :=
  match o with
  | Initialize env => let r := initialize_scrapybara env s in (session_of r, trace_of r)
  | Login run => let r := login_with_agent run s in (session_of r, trace_of r)
  | FillForm run => let r := fill_applicant_form run s in (session_of r, trace_of r)
  | ProvideHumanInput v run =>
      let r := provide_human_input v run s in (session_of r, trace_of r)
  | RunFull env run => let r := run_automation env run s in (session_of r, trace_of r)
  | Cleanup stop => let r := cleanup stop s in (session_of r, trace_of r)
  end.

Fixpoint run_ops (ops : list Op) (s : Session) : Session * list Status :=
  match ops with
  | [] => (s, [])
  | o :: ops' =>
      let '(s1, t1) := step o s in
      let '(s2, t2) := run_ops ops' s1 in
      (s2, (t1 ++ t2)%list)
  end.

(** ** The state graph of section 4.3 *)

Definition edge (a b : Status) : bool :=
  match a, b with
  | initialized, initializing
  | initializing, initialized
  | initialized, logging_in
  | logging_in, logged_in
  | logged_in, filling_form
  | filling_form, waiting_for_input
  | waiting_for_input, filling_form
  | filling_form, form_filled
  | form_filled, completed => true
  | _, error => true
  | _, _ => false
  end.

(** The graph the code walks: [initialize_scrapybara] and
    [login_with_agent] do not look at the status they start from. *)
Definition code_edge (a b : Status) : bool :=
  edge a b ||
  match b with
  | initializing | logging_in => true
  | _ => false
  end.

(** Starting in [cur], every change of status in [trace] is an edge of [g]. *)
Fixpoint follows (g : Status -> Status -> bool) (cur : Status) (trace : list Status) : bool :=
  match trace with
  | [] => true
  | st :: t => (Status_eqb cur st || g cur st) && follows g st t
  end.

(** Some change of status in [trace] goes to [initialized]. *)
Fixpoint enters_initialized (cur : Status) (trace : list Status) : bool :=
  match trace with
  | [] => false
  | st :: t =>
      (negb (Status_eqb cur initialized) && Status_eqb st initialized)
      || enters_initialized st t
  end.

(** The pending request is kept as a flag with two strings beside it. *)
Definition request_pending (s : Session) : Prop := require_human_input s = true.

(** [sep] does not occur in [s] at any offset below [n]. *)
Definition none_before (sep s : string) (n : nat) : Prop :=
  forall i, i < n -> PyStr.occurs_at sep s i = false.

(** [mid] runs up to the next occurrence of [sep], which [tail] starts
    with, or up to the end of the text. *)
Definition up_to_next (sep mid tail : string) : Prop :=
  (tail = "" /\ PyStr.contains sep mid = false)
  \/ (prefix sep tail = true /\ none_before sep (mid ++ tail) (String.length mid)).

(** The agent phase of [fill_applicant_form] and [provide_human_input]
    ends with the result [r]: either the first run carries no pending
    safety check, or the run repeated with the checks acknowledged
    returns. *)
Inductive agent_answers (run : Runner) (input : RunInput) : RunResult -> Prop :=
| answers_at_once (r : RunResult) (last : Item) (before : list Item) :
    run form_agent input 500 = run_returns r ->
    to_input_list r = (before ++ [last])%list ->
    Py.truthy (Py.get_val last "pending_safety_checks") = false ->
    agent_answers run input r
| answers_on_retry (r0 r : RunResult) (last : Item) (before : list Item) (vals : Py.Val) :
    run form_agent input 500 = run_returns r0 ->
    to_input_list r0 = (before ++ [last])%list ->
    Py.truthy (Py.get_val last "pending_safety_checks") = true ->
    Py.del_item (Py.get_val last "pending_safety_checks") "pending_safety_checks"
    = inr vals ->
    run form_agent
        (list_input (before ++ [Py.set (Py.set last "pending_safety_checks" vals)
                                       "acknowledged_safety_checks" vals])%list)
        500
    = run_returns r ->
    agent_answers run input r.

(** The status after the assignments of [trace], starting from [cur]. *)
Fixpoint status_after (cur : Status) (trace : list Status) : Status :=
  match trace with
  | [] => cur
  | st :: t => status_after st t
  end.

(** Operations that leave a waiting session waiting or answer its request. *)
Definition respects_request (o : Op) : bool :=
  match o with
  | FillForm _ | ProvideHumanInput _ _ | Cleanup _ => true
  | Initialize _ | Login _ | RunFull _ _ => false
  end.

(** The message of the one failure entry a rejected call logs. *)
Definition not_initialized : string := "Scrapybara instance not initialized".

(** The session after one more error entry in the log. *)
Definition logged_error (msg : string) (s : Session) : Session :=
  with_log_entries (log_entries s ++ [{| level := Level.error; message := msg |}])%list s.

(** ** Data of the end-to-end scenario of section 8 *)

Definition example_credentials : Py.dict string :=
  [("destination_url", "https://ezlynx.example");
   ("username", "agent1"); ("password", "secret")].

Definition example_email : Py.dict string :=
  [("subject", "New Lead"); ("body", "Acme Corp, 123 Main St")].

(** An agent run that ends with the text [out] and no safety check. *)
Definition answer (out : string) : Runner :=
  fun _ _ _ =>
    run_returns {| final_output := out;
                   to_input_list := [[("role", Py.PStr "assistant")]] |}.

(** An agent run whose last item carries one pending safety check, the
    way the computer-use model reports them. *)
Definition flags_safety_check : Runner :=
  fun _ _ _ =>
    run_returns
      {| final_output := "Form submitted successfully.";
         to_input_list :=
           [[("type", Py.PStr "computer_call");
             ("pending_safety_checks",
              Py.PList [Py.PDict [("id", Py.PStr "sc_1");
                                  ("code", Py.PStr "malicious_instructions");
                                  ("message", Py.PStr "Confirm the action.")]])]] |}.

Definition ready : Session :=
  fst (run_ops [Initialize (init_ok "inst-1")] (__init__ (loaded example_credentials example_email))).

Definition logged : Session :=
  fst (run_ops [Login (answer "Logged in.")] ready).

Definition waiting : Session :=
  fst (run_ops [FillForm (answer "...HUMAN_INPUT_REQUIRED: Industry - no industry mentioned")]
               logged).

(** ** Status queries *)

(** The dictionary [get_status] returns; the three request keys are
    present together or not at all. *)
Record StatusInfo := {
  info_status : Status;
  info_log_entries : list LogEntry;
  info_human_input : option (string * string)
    (* human_input_prompt, human_input_field *)
}.

(** [l[-10:] if len(l) > 10 else l] *)
Definition recent {A} (l : list A) : list A :=
  if Nat.ltb 10 (length l) then skipn (length l - 10) l else l.

(** [get_status], lines 477-492 *)
Definition get_status (s : Session) : StatusInfo :=
  {| info_status := status s;
     info_log_entries := recent (log_entries s);
     info_human_input :=
       if require_human_input s
       then Some (human_input_prompt s, human_input_field s)
       else None |}.

(** [get_streaming_url], lines 494-502; [url] is how
    [computer.get_streaming_url()] ends. *)
Definition get_streaming_url (url : Result string) (s : Session) : option string :=
  match computer s with
  | None => None
  | Some c =>
      match instance c with
      | None => None
      | Some _ =>
          match url with
          | ok u => Some u
          | raised _ => None
          end
      end
  end.

(** ** What every operation keeps *)

(** The part of the session that no method assigns after construction,
    the log that only grows, the handle that is only ever set, and the
    collected inputs whose keys only grow at the end. *)
Record keeps (s s' : Session) : Prop := {
  keeps_credentials : credentials s' = credentials s;
  keeps_email_content : email_content s' = email_content s;
  keeps_instance_id : instance_id s' = instance_id s;
  keeps_log : exists extra, log_entries s' = (log_entries s ++ extra)%list;
  keeps_computer : computer s <> None -> computer s' <> None;
  keeps_collected :
    exists extra,
      Py.keys (human_inputs_collected s') = (Py.keys (human_inputs_collected s) ++ extra)%list
}.

(** The prompt for the human names the pending field. *)
Definition prompt_names_field (s : Session) : Prop :=
  (human_input_field s = "" /\ human_input_prompt s = "")
  \/ exists explanation,
       human_input_prompt s
       = "Please provide value for: " ++ human_input_field s ++ nl ++ explanation.

Definition is_run_full (o : Op) : bool :=
  match o with
  | RunFull _ _ => true
  | _ => false
  end.

(** The credentials [login_with_agent] needs are all there. *)
Definition credentials_present (s : Session) : bool :=
  negb (Py.falsy (Py.get (credentials s) "destination_url")
        || Py.falsy (Py.get (credentials s) "username")
        || Py.falsy (Py.get (credentials s) "password")).

(** ** The service, [src/app.py]

    The handlers act on the module-level [automation_instance].  A JSON
    value posted as [input_value] is taken to be a string or absent. *)

Module App.

Inductive Response :=
| JSONResponse (status_code : nat) (error : string)
    (* JSONResponse(status_code=.., content={"error": ..}) *)
| Message (message : string)
    (* {"message": ..} *)
| WaitingForInput (field prompt : string)
    (* {"status": "waiting_for_input", "field": .., "prompt": ..} *)
| Continuing
    (* {"status": "continuing", "message": "Input provided, continuing automation"} *)
| StatusReport (info : StatusInfo) (streaming_url : option string).

(** [status not in ["error", "completed", "waiting_for_input"]] *)
Definition still_running (st : Status) : bool :=
  match st with
  | error | completed | waiting_for_input => false
  | _ => true
  end.

(** [start_automation], lines 113-128: the response, and whether the
    background task was added. *)
Definition start_automation (automation_instance : option Session) : Response * bool :=
  match automation_instance with
  | Some s =>
      if still_running (status s)
      then (JSONResponse 400 "Automation is already running", false)
      else (Message "Automation process started in the background", true)
  | None => (Message "Automation process started in the background", true)
  end.

(** The background task [run_automation], lines 95-111: the new value of
    [automation_instance].  Building the object is taken not to fail, as
    in [__init__]. *)
Definition run_automation
    (l : LoadOutcome) (env : InitOutcome) (run : Runner) (stop : option Py.Exc)
  : option Session :=
  let s := __init__ l in
  match run_automation env run s with
  | (ok _, s', _) => Some s'
  | (raised _, s', _) => Some (session_of (cleanup stop s'))
  end.

(** [provide_human_input], lines 130-173 *)
Definition provide_human_input
    (automation_instance : option Session) (input_value : option string) (run : Runner)
  : Response * option Session :=
  match automation_instance with
  | None => (JSONResponse 404 "No automation has been started", None)
  | Some s =>
      if negb (Status_eqb (status s) waiting_for_input)
      then (JSONResponse 400 "Automation is not waiting for input", Some s)
      else
        match input_value with
        | None => (JSONResponse 400 "No input value provided", Some s)
        | Some v =>
            if String.eqb v ""
            then (JSONResponse 400 "No input value provided", Some s)
            else
              match provide_human_input v run s with
              | (ok (RRequiresInput field prompt), s', _) =>
                  (WaitingForInput field prompt, Some s')
              | (ok _, s', _) => (Continuing, Some s')
              | (raised e, s', _) =>
                  (JSONResponse 500 ("Error providing input: " ++ Py.exc_str e), Some s')
              end
        end
  end.

(** [get_automation_status], lines 175-200 *)
Definition get_automation_status
    (automation_instance : option Session) (url : Result string) : Response :=
  match automation_instance with
  | None => JSONResponse 404 "No automation has been started"
  | Some s =>
      let streaming_url := get_streaming_url url s in
      let streaming_url :=
        match streaming_url with
        | Some u => if String.eqb u "" then None else Some u
        | None => None
        end in
      StatusReport (get_status s) streaming_url
  end.

(** [stop_automation], lines 202-220 *)
Definition stop_automation
    (automation_instance : option Session) (stop : option Py.Exc)
  : Response * option Session :=
  match automation_instance with
  | None => (JSONResponse 404 "No automation has been started", None)
  | Some s =>
      match cleanup stop s with
      | (ok _, s', _) => (Message "Automation stopped successfully", Some s')
      | (raised e, s', _) =>
          (JSONResponse 500 ("Error stopping automation: " ++ Py.exc_str e), Some s')
      end
  end.

End App.

(** ** The remote desktop adapter, [src/async_scrapybara_ubuntu_computer.py] *)

Module Ubuntu.

(** [str.lower] on one character, for code points below 256: the
    letters A-Z and the Latin-1 capitals move up by 32. *)
Definition lower_char (c : ascii) : ascii :=
  let n := nat_of_ascii c in
  if (Nat.leb 65 n && Nat.leb n 90)
     || (Nat.leb 192 n && Nat.leb n 214)
     || (Nat.leb 216 n && Nat.leb n 222)
  then ascii_of_nat (n + 32)
  else c.

(** [s.lower()] *)
Fixpoint lower (s : string) : string :=
  match s with
  | EmptyString => EmptyString
  | String c s' => String (lower_char c) (lower s')
  end.

(** Lines 15-36. *)
Definition CUA_KEY_TO_SCRAPYBARA_KEY : Py.dict string :=
  [("/", "slash"); ("\", "backslash"); ("arrowdown", "Down");
   ("arrowleft", "Left"); ("arrowright", "Right"); ("arrowup", "Up");
   ("backspace", "BackSpace"); ("capslock", "Caps_Lock"); ("cmd", "Meta_L");
   ("delete", "Delete"); ("end", "End"); ("enter", "Return");
   ("esc", "Escape"); ("home", "Home"); ("insert", "Insert");
   ("option", "Alt_L"); ("pagedown", "Page_Down"); ("pageup", "Page_Up");
   ("tab", "Tab"); ("win", "Meta_L")].

(** [CUA_KEY_TO_SCRAPYBARA_KEY.get(key.lower(), key.lower())] *)
Definition mapped_key (key : string) : string :=
  match Py.get CUA_KEY_TO_SCRAPYBARA_KEY (lower key) with
  | Some k => k
  | None => lower key
  end.

(** The [keys] argument [keypress] sends with [press_key], lines 170-174. *)
Definition keypress (keys : list string) : list string := map mapped_key keys.

(** The [delta_x] and [delta_y] that [scroll] sends, lines 143-149;
    [//] rounds towards minus infinity, as [Z.div] does. *)
Definition scroll (scroll_x scroll_y : Z) : Z * Z :=
  ((scroll_x / 20)%Z, (scroll_y / 20)%Z).

(** The [button] that [click] sends, lines 118-126. *)
Definition click (button : string) : string :=
  if String.eqb button "wheel" then "middle" else button.

(** A point of a drag path: a tuple, a list, a dictionary of integers or
    a bare number. *)
Inductive Point :=
| tuple_point (coords : list Z)
| list_point (coords : list Z)
| dict_point (d : Py.dict Z)
| number_point (z : Z).

Inductive DragError := ValueError | IndexError | KeyError | TypeError.

(** [[point[0], point[1]]] *)
Definition by_position (p : Point) : DragError + Z * Z :=
  match p with
  | tuple_point l | list_point l =>
      match nth_error l 0, nth_error l 1 with
      | Some x, Some y => inr (x, y)
      | _, _ => inl IndexError
      end
  | dict_point _ => inl KeyError
  | number_point _ => inl TypeError
  end.

(** [[point["x"], point["y"]]] *)
Definition by_name (p : Point) : DragError + Z * Z :=
  match p with
  | dict_point d =>
      match Py.get d "x", Py.get d "y" with
      | Some x, Some y => inr (x, y)
      | _, _ => inl KeyError
      end
  | _ => inl TypeError
  end.

(** A list comprehension whose element expression may raise. *)
Fixpoint comprehension {A B E} (f : A -> E + B) (l : list A) : E + list B :=
  match l with
  | [] => inr []
  | a :: l' =>
      match f a with
      | inl e => inl e
      | inr b =>
          match comprehension f l' with
          | inl e => inl e
          | inr bs => inr (b :: bs)
          end
      end
  end.

(** One attempt of [drag], lines 179-188: the [path] handed over with
    [drag_mouse], or [None] when the method returns before that. *)
Definition drag (path : list Point) : DragError + option (list (Z * Z)) :=
  match path with
  | [] => inr None
  | tuple_point _ :: _ =>
      match comprehension by_position path with
      | inl e => inl e
      | inr new_path => inr (Some new_path)
      end
  | dict_point _ :: _ =>
      match comprehension by_name path with
      | inl e => inl e
      | inr new_path => inr (Some new_path)
      end
  | _ => inl ValueError
  end.

(** What a backend call does: it returns, or raises an [ApiError], or
    raises something else. *)
Inductive Outcome (A : Type) :=
| returns (a : A)
| api_error (e : Py.Exc)
| other_error (e : Py.Exc).
Arguments returns {A} a.
Arguments api_error {A} e.
Arguments other_error {A} e.

(** The Scrapybara client as [initialize] meets it.  [get] answers with
    the instance, or with [None]. *)
Record Backend := {
  get : string -> Outcome (option string);
  resume : Outcome unit;
  get_stream_url : Outcome string;
  start_ubuntu : Outcome string;
  browser_start : Outcome unit
}.

Inductive Call :=
| call_get (id : string)
| call_resume
| call_get_stream_url
| call_start_ubuntu
| call_browser_start.

(** The adapter object: its [instance] and the calls it has made. *)
Record Adapter := {
  adapter_instance : option string;
  calls : list Call
}.

Definition Run (A : Type) : Type := Adapter -> Outcome A * Adapter.

Definition call {A} (c : Call) (o : Outcome A) : Run A :=
  fun a => (o, {| adapter_instance := adapter_instance a;
                  calls := (calls a ++ [c])%list |}).

Definition then_ {A B} (m : Run A) (f : A -> Run B) : Run B :=
  fun a =>
    match m a with
    | (returns x, a1) => f x a1
    | (api_error e, a1) => (api_error e, a1)
    | (other_error e, a1) => (other_error e, a1)
    end.

Definition done {A} (x : A) : Run A := fun a => (returns x, a).

Definition set_instance (i : option string) : Run unit :=
  fun a => (returns tt, {| adapter_instance := i; calls := calls a |}).

(** [if self.instance_id:] *)
Definition given (instance_id : option string) : option string :=
  match instance_id with
  | Some id => if String.eqb id "" then None else Some id
  | None => None
  end.

(** [initialize], lines 60-96; the pause of five seconds after a resume
    is left out. *)
Definition initialize (b : Backend) (verbose : bool) (instance_id : option string)
  : Run unit :=
  match given instance_id with
  | Some id =>
      then_ (call (call_get id) (get b id)) (fun found =>
      then_ (set_instance found) (fun _ =>
      match found with
      | None => fun a => (other_error (Py.Exception ("Instance not found: " ++ id)), a)
      | Some _ =>
          fun a =>
            match
              then_ (call call_resume (resume b)) (fun _ =>
                if verbose
                then then_ (call call_get_stream_url (get_stream_url b))
                           (fun _ => done tt)
                else done tt) a
            with
            | (api_error e, a1) =>
                if PyStr.contains "Instance is not paused" (Py.exc_str e)
                then (returns tt, a1)
                else (api_error e, a1)
            | r => r
            end
      end))
  | None =>
      then_ (call call_start_ubuntu (start_ubuntu b)) (fun started =>
      then_ (set_instance (Some started)) (fun _ =>
      then_ (if verbose
             then then_ (call call_get_stream_url (get_stream_url b))
                        (fun _ => done tt)
             else done tt) (fun _ =>
      call call_browser_start (browser_start b))))
  end.

(** The adapter as [AsyncScrapybaraUbuntu(...)] leaves it. *)
Definition fresh : Adapter := {| adapter_instance := None; calls := [] |}.

End Ubuntu.

(** A method call that ends without raising. *)
Definition returns_normally {A} (r : Result A * Session * list Status) : Prop :=
  exists a, result_of r = ok a.

(** The ["success"] entry of a returned dictionary, and the truth of a
    returned boolean. *)
Definition success_of (r : FormResult) : bool :=
  match r with
  | RBool b => b
  | RRequiresInput _ _ => false
  | RMessage success _ => success
  | RWaiting _ => true
  end.

(** The session with its log left out. *)
Definition without_log (s : Session) : Session := with_log_entries [] s.

(** ** The email reader, [src/simple_eml_parser.py] *)

Module Eml.

(** A parsed message as [extract_email_content] looks at it: a part has
    a content type and either a payload, given by what
    [get_payload(decode=True).decode()] yields, or sub-parts. *)
Inductive Message :=
| leaf (content_type : string) (decoded : Py.Exc + string)
| multipart (content_type : string) (parts : list Message).

Definition get_content_type (m : Message) : string :=
  match m with
  | leaf c _ => c
  | multipart c _ => c
  end.

Definition is_multipart (m : Message) : bool :=
  match m with
  | leaf _ _ => false
  | multipart _ _ => true
  end.

(** [msg.walk()]: the message, then its parts, depth first. *)
Fixpoint walk (m : Message) : list Message :=
  m :: match m with
       | leaf _ _ => []
       | multipart _ parts => flat_map walk parts
       end.

(** [part.get_payload(decode=True).decode()]; a part with sub-parts has
    no payload to decode. *)
Definition decode (m : Message) : Py.Exc + string :=
  match m with
  | leaf _ decoded => decoded
  | multipart _ _ =>
      inl {| Py.exc_class := "AttributeError";
             Py.exc_str := "'NoneType' object has no attribute 'decode'" |}
  end.

(** The loop of lines 25-29, with [body = ""] before it. *)
Fixpoint first_plain (parts : list Message) : Py.Exc + string :=
  match parts with
  | [] => inr ""
  | part :: rest =>
      if String.eqb (get_content_type part) "text/plain"
      then decode part
      else first_plain rest
  end.

(** [extract_email_content], lines 6-36, on the parsed message;
    [subject] is the [Subject] header, if any. *)
Definition extract_email_content (subject : option string) (msg : Message)
  : Py.Exc + Py.dict string :=
  let subject := match subject with Some s => s | None => "" end in
  match (if is_multipart msg then first_plain (walk msg) else decode msg) with
  | inl e => inl e
  | inr body => inr [("subject", subject); ("body", body)]
  end.

(** The parts without sub-parts, in the order of the document. *)
Fixpoint leaves (m : Message) : list Message :=
  match m with
  | leaf _ _ => [m]
  | multipart _ parts => flat_map leaves parts
  end.

(** No part with sub-parts is typed [text/plain]. *)
Fixpoint containers_typed (m : Message) : bool :=
  match m with
  | leaf _ _ => true
  | multipart c parts =>
      negb (String.eqb c "text/plain") && forallb containers_typed parts
  end.

End Eml.

(** * Properties *)

(** ** Strings *)

Lemma append_nil_r (s : string) : s ++ "" = s.
Proof. induction s as [|c s IH]; simpl; [reflexivity | now rewrite IH]. Qed.

Lemma append_assoc (a b c : string) : (a ++ b) ++ c = a ++ b ++ c.
Proof. induction a as [|x a IH]; simpl; [reflexivity | now rewrite IH]. Qed.

Lemma prefix_nil (s : string) : prefix "" s = true.
Proof. now destruct s. Qed.

Lemma prefix_append (p s : string) : prefix p (p ++ s) = true.
Proof.
  induction p as [|c p IH]; simpl.
  - now destruct s.
  - destruct (ascii_dec c c) as [_|n]; [exact IH | now elim n].
Qed.

Lemma prefix_split (p s : string) : prefix p s = true -> exists t, s = p ++ t.
Proof.
  revert s; induction p as [|c p IH]; intros s H.
  - now exists s.
  - destruct s as [|d s]; simpl in H; [discriminate|].
    destruct (ascii_dec c d) as [->|_]; [|discriminate].
    destruct (IH _ H) as [t ->]. now exists t.
Qed.

Lemma split_from_nonempty (sep s : string) (k : nat) (cur : string) :
  PyStr.split_from sep s k cur <> [].
Proof.
  revert k cur; induction s as [|c s IH]; intros k cur; cbn [PyStr.split_from];
    [discriminate|].
  destruct k; [|apply IH].
  destruct (prefix sep (String c s)); [discriminate | apply IH].
Qed.

(** The characters of a separator that was just recognised are dropped. *)
Lemma split_from_skip (sep x s cur : string) :
  PyStr.split_from sep (x ++ s) (String.length x) cur = PyStr.split_from sep s 0 cur.
Proof.
  induction x as [|c x IH]; simpl; [|exact IH].
  destruct s; reflexivity.
Qed.

Lemma split_from_sep (sep s cur : string) :
  sep <> "" ->
  PyStr.split_from sep (sep ++ s) 0 cur = cur :: PyStr.split_from sep s 0 "".
Proof.
  intros Hne. destruct sep as [|c sep]; [now elim Hne|].
  change (String c sep ++ s) with (String c (sep ++ s)).
  cbn [PyStr.split_from].
  change (String c (sep ++ s)) with (String c sep ++ s).
  rewrite prefix_append.
  cbn [String.length]. rewrite Nat.sub_1_r. cbn [Nat.pred].
  now rewrite split_from_skip.
Qed.

(** Up to the first occurrence of the separator. *)
Lemma split_from_first (sep pre s cur : string) :
  sep <> "" ->
  (forall i, i < String.length pre -> PyStr.occurs_at sep (pre ++ sep ++ s) i = false) ->
  PyStr.split_from sep (pre ++ sep ++ s) 0 cur
  = (cur ++ pre) :: PyStr.split_from sep s 0 "".
Proof.
  intros Hne. revert cur; induction pre as [|c pre IH]; intros cur H.
  - cbn [append]. rewrite append_nil_r. now apply split_from_sep.
  - change (String c pre ++ sep ++ s) with (String c (pre ++ sep ++ s)).
    cbn [PyStr.split_from].
    assert (H0 : prefix sep (String c (pre ++ sep ++ s)) = false)
      by (apply (H 0); simpl; lia).
    rewrite H0, IH.
    + now rewrite append_assoc.
    + intros i Hi. apply (H (S i)). simpl; lia.
Qed.

(** No occurrence at all: one piece. *)
Lemma split_from_absent (sep s cur : string) :
  PyStr.contains sep s = false ->
  PyStr.split_from sep s 0 cur = [cur ++ s].
Proof.
  revert cur; induction s as [|c s IH]; intros cur H.
  - simpl. now rewrite append_nil_r.
  - cbn [PyStr.contains] in H. apply orb_false_iff in H as [Hp Hc].
    cbn [PyStr.split_from]. rewrite Hp, (IH _ Hc). now rewrite append_assoc.
Qed.

(** [sep in s] makes [s.split(sep)[1]] defined. *)
Lemma split_from_contains (sep s cur : string) :
  sep <> "" ->
  PyStr.contains sep s = true ->
  exists x, nth_error (PyStr.split_from sep s 0 cur) 1 = Some x.
Proof.
  intros Hne. revert cur; induction s as [|c s IH]; intros cur H.
  - destruct sep; [now elim Hne | discriminate].
  - cbn [PyStr.contains] in H. cbn [PyStr.split_from].
    destruct (prefix sep (String c s)) eqn:Hp.
    + pose proof (split_from_nonempty sep s (String.length sep - 1) "") as Hn.
      destruct (PyStr.split_from sep s (String.length sep - 1) "") as [|x l];
        [now elim Hn | now exists x].
    + apply IH. exact H.
Qed.

Lemma split_head (sep s : string) :
  exists x l, PyStr.split sep s = x :: l.
Proof.
  unfold PyStr.split.
  pose proof (split_from_nonempty sep s 0 "") as Hn.
  destruct (PyStr.split_from sep s 0 "") as [|x l]; [now elim Hn | eauto].
Qed.

(** *** Splitting on one character *)

Lemma contains_char (d c : ascii) (s : string) :
  PyStr.contains (String d "") (String c s)
  = (if ascii_dec d c then true else PyStr.contains (String d "") s).
Proof.
  cbn [PyStr.contains prefix].
  destruct (ascii_dec d c); [now destruct s | reflexivity].
Qed.

Lemma join_cons (sep x y : string) (l : list string) :
  PyStr.join sep (x :: y :: l) = x ++ sep ++ PyStr.join sep (y :: l).
Proof. reflexivity. Qed.

(** Joining the pieces with the separator gives the text back. *)
Lemma join_split_from (d : ascii) (s cur : string) :
  PyStr.join (String d "") (PyStr.split_from (String d "") s 0 cur) = cur ++ s.
Proof.
  revert cur; induction s as [|c s IH]; intros cur.
  - simpl. now rewrite append_nil_r.
  - cbn [PyStr.split_from prefix String.length Nat.sub].
    destruct (ascii_dec d c) as [->|Hn].
    + rewrite prefix_nil.
      pose proof (split_from_nonempty (String c "") s 0 "") as Hne.
      specialize (IH "").
      destruct (PyStr.split_from (String c "") s 0 "") as [|x l]; [now elim Hne|].
      rewrite join_cons, IH. reflexivity.
    + rewrite IH. now rewrite append_assoc.
Qed.

Lemma split_char_first (d : ascii) (a b : string) :
  PyStr.contains (String d "") a = false ->
  PyStr.split (String d "") (a ++ String d b)
  = a :: PyStr.split (String d "") b.
Proof.
  intros H. unfold PyStr.split.
  change (a ++ String d b) with (a ++ String d "" ++ b).
  rewrite split_from_first; [reflexivity | discriminate |].
  intros i; revert i.
  induction a as [|c a IH]; intros i Hi.
  - simpl in Hi; lia.
  - rewrite contains_char in H. destruct (ascii_dec d c) as [|Hn]; [discriminate|].
    destruct i.
    + cbn [PyStr.occurs_at append prefix]. destruct (ascii_dec d c); [contradiction | reflexivity].
    + cbn [PyStr.occurs_at append]. apply IH; [exact H | simpl in Hi; lia].
Qed.

(** *** Trimming *)

Lemma lstrip_app_nonspace (a : string) (c : ascii) (b : string) :
  PyStr.is_space c = false ->
  PyStr.lstrip (a ++ String c b) = PyStr.lstrip a ++ String c b.
Proof.
  intros Hc. induction a as [|x a IH]; cbn [append PyStr.lstrip].
  - now rewrite Hc.
  - destruct (PyStr.is_space x); [exact IH | reflexivity].
Qed.

Lemma rstrip_app_nonspace (a : string) (c : ascii) (b : string) :
  PyStr.is_space c = false ->
  PyStr.rstrip (a ++ String c b) = a ++ String c (PyStr.rstrip b).
Proof.
  intros Hc. induction a as [|x a IH]; cbn [append PyStr.rstrip].
  - rewrite Hc. now destruct (PyStr.rstrip b).
  - rewrite IH. now destruct a.
Qed.

Lemma lstrip_idem (s : string) : PyStr.lstrip (PyStr.lstrip s) = PyStr.lstrip s.
Proof.
  induction s as [|c s IH]; [reflexivity|].
  cbn [PyStr.lstrip]. destruct (PyStr.is_space c) eqn:E; [exact IH|].
  cbn [PyStr.lstrip]. now rewrite E.
Qed.

Lemma rstrip_cons (c : ascii) (s : string) :
  PyStr.rstrip (String c s)
  = match PyStr.rstrip s with
    | EmptyString => if PyStr.is_space c then EmptyString else String c EmptyString
    | r => String c r
    end.
Proof. reflexivity. Qed.

Lemma rstrip_idem (s : string) : PyStr.rstrip (PyStr.rstrip s) = PyStr.rstrip s.
Proof.
  induction s as [|c s IH]; [reflexivity|].
  rewrite rstrip_cons.
  destruct (PyStr.rstrip s) as [|y r] eqn:E.
  - destruct (PyStr.is_space c) eqn:Ec; [reflexivity|].
    rewrite rstrip_cons. cbn [PyStr.rstrip]. now rewrite Ec.
  - rewrite rstrip_cons, IH. reflexivity.
Qed.

Lemma rstrip_empty_lstrip (s : string) :
  PyStr.rstrip s = "" -> PyStr.lstrip s = "".
Proof.
  induction s as [|c s IH]; [reflexivity|].
  rewrite rstrip_cons. cbn [PyStr.lstrip].
  destruct (PyStr.rstrip s) as [|y r]; [|discriminate].
  destruct (PyStr.is_space c); [intros _; now apply IH | discriminate].
Qed.

Lemma strip_rstrip (s : string) : PyStr.strip (PyStr.rstrip s) = PyStr.strip s.
Proof.
  unfold PyStr.strip. induction s as [|c s IH]; [reflexivity|].
  rewrite rstrip_cons. cbn [PyStr.lstrip].
  destruct (PyStr.rstrip s) as [|y r] eqn:E.
  - destruct (PyStr.is_space c) eqn:Ec.
    + rewrite (rstrip_empty_lstrip s E). reflexivity.
    + cbn [PyStr.lstrip]. rewrite Ec, !rstrip_cons, E. cbn [PyStr.rstrip].
      now rewrite Ec.
  - assert (Hyr : PyStr.rstrip (String y r) = String y r)
      by (rewrite <- E; apply rstrip_idem).
    cbn [PyStr.lstrip]. destruct (PyStr.is_space c) eqn:Ec.
    + exact IH.
    + rewrite (rstrip_cons c (String y r)), (rstrip_cons c s), Hyr, E. reflexivity.
Qed.

Lemma strip_lstrip (s : string) : PyStr.strip (PyStr.lstrip s) = PyStr.strip s.
Proof. unfold PyStr.strip. now rewrite lstrip_idem. Qed.

Lemma strip_idem (s : string) : PyStr.strip (PyStr.strip s) = PyStr.strip s.
Proof.
  unfold PyStr.strip at 2. rewrite strip_rstrip, strip_lstrip. reflexivity.
Qed.

(** Trimming the text around a character that is no white space. *)
Lemma strip_around (a : string) (c : ascii) (b : string) :
  PyStr.is_space c = false ->
  PyStr.strip (a ++ String c b) = PyStr.lstrip a ++ String c (PyStr.rstrip b).
Proof.
  intros Hc. unfold PyStr.strip.
  now rewrite (lstrip_app_nonspace a c b Hc), (rstrip_app_nonspace _ c b Hc).
Qed.

Lemma contains_char_lstrip (d : ascii) (s : string) :
  PyStr.contains (String d "") s = false ->
  PyStr.contains (String d "") (PyStr.lstrip s) = false.
Proof.
  induction s as [|c s IH]; intros H; [exact H|].
  cbn [PyStr.lstrip]. destruct (PyStr.is_space c); [|exact H].
  apply IH. rewrite contains_char in H. now destruct (ascii_dec d c).
Qed.

Lemma contains_char_rstrip (d : ascii) (s : string) :
  PyStr.contains (String d "") s = false ->
  PyStr.contains (String d "") (PyStr.rstrip s) = false.
Proof.
  induction s as [|c s IH]; intros H; [exact H|].
  rewrite contains_char in H.
  destruct (ascii_dec d c) as [|Hn]; [discriminate|].
  specialize (IH H). rewrite rstrip_cons.
  destruct (PyStr.rstrip s) as [|y r].
  - destruct (PyStr.is_space c); [reflexivity|].
    rewrite contains_char. now destruct (ascii_dec d c).
  - rewrite contains_char. now destruct (ascii_dec d c).
Qed.

(** ** Parsing the agent's request *)

Lemma run_index {A} (l : list A) (i : nat) (x : A) (s : Session) :
  nth_error l i = Some x -> index l i s = (ok x, s, []).
Proof. intros H. unfold index. now rewrite H. Qed.

Lemma marker_nonempty : marker <> "".
Proof. discriminate. Qed.

(** The piece [split(marker)[1]] of an output: what stands between the
    first marker and the next one. *)
Lemma split_marker_piece (pre mid tail : string) :
  none_before marker (pre ++ marker ++ mid ++ tail) (String.length pre) ->
  up_to_next marker mid tail ->
  nth_error (PyStr.split marker (pre ++ marker ++ mid ++ tail)) 1 = Some mid.
Proof.
  intros Hpre Hnext. unfold PyStr.split.
  rewrite (split_from_first marker pre (mid ++ tail) "" marker_nonempty Hpre).
  cbn [nth_error].
  destruct Hnext as [[-> Hno] | [Hp Hmid]].
  - rewrite append_nil_r, (split_from_absent marker mid "" Hno). reflexivity.
  - destruct (prefix_split marker tail Hp) as [t ->].
    rewrite (split_from_first marker mid t "" marker_nonempty Hmid). reflexivity.
Qed.

Lemma parse_piece (out piece a b : string) (s : Session) :
  nth_error (PyStr.split marker out) 1 = Some piece ->
  PyStr.strip piece = a ++ "-" ++ b ->
  PyStr.contains "-" a = false ->
  parse_input_request out s = (ok (PyStr.strip a, PyStr.strip b), s, []).
Proof.
  intros Hpiece Hreq Hdash.
  unfold parse_input_request, bind.
  rewrite (run_index _ 1 piece s Hpiece), Hreq.
  change (a ++ "-" ++ b) with (a ++ String "-" b).
  rewrite (split_char_first "-"%char a b Hdash).
  cbn [index nth_error ret tl app].
  unfold PyStr.split. rewrite join_split_from. reflexivity.
Qed.

Lemma parse_input_request_ok (out : string) :
  PyStr.contains marker out = true ->
  exists f e, forall s : Session, parse_input_request out s = (ok (f, e), s, []).
Proof.
  intros H.
  destruct (split_from_contains marker out "" marker_nonempty H) as [piece Hp].
  change (nth_error (PyStr.split marker out) 1 = Some piece) in Hp.
  destruct (split_head "-" (PyStr.strip piece)) as (x & l & Hx).
  exists (PyStr.strip x), (PyStr.strip (PyStr.join "-" l)). intros s.
  unfold parse_input_request, bind.
  rewrite (run_index _ 1 piece s Hp), Hx. reflexivity.
Qed.

Lemma dash_not_space : PyStr.is_space "-" = false.
Proof. reflexivity. Qed.

Lemma parse_untrimmed (out piece a b : string) (s : Session) :
  nth_error (PyStr.split marker out) 1 = Some piece ->
  piece = a ++ "-" ++ b ->
  PyStr.contains "-" a = false ->
  parse_input_request out s = (ok (PyStr.strip a, PyStr.strip b), s, []).
Proof.
  intros Hpiece -> Hdash.
  rewrite <- (strip_lstrip a), <- (strip_rstrip b).
  apply (parse_piece out (a ++ "-" ++ b)); [exact Hpiece | |].
  - exact (strip_around a "-" b dash_not_space).
  - now apply contains_char_lstrip.
Qed.

Lemma parse_no_dash (out piece : string) (s : Session) :
  nth_error (PyStr.split marker out) 1 = Some piece ->
  PyStr.contains "-" piece = false ->
  parse_input_request out s = (ok (PyStr.strip piece, ""), s, []).
Proof.
  intros Hpiece Hdash.
  unfold parse_input_request, bind.
  rewrite (run_index _ 1 piece s Hpiece).
  unfold PyStr.split at 1 2.
  rewrite (split_from_absent "-" (PyStr.strip piece) "").
  - cbn [index nth_error ret tl app PyStr.join append]. now rewrite strip_idem.
  - unfold PyStr.strip. now apply contains_char_rstrip, contains_char_lstrip.
Qed.

(** C4, as amended: the text between the first marker and the next one
    (or the end of the output) is cut at its first [-]; what stands
    before, trimmed, is the field name, and what stands after, later [-]
    included, trimmed, is the explanation; without any [-] the whole
    text, trimmed, is the field name and the explanation is empty.  The
    output of the specification's example parses to ["Business Address"]
    and ["Not present in the email text"]. *)
Theorem parse_input_request_first_dash :
  (forall (pre mid tail a b : string) (s : Session),
      none_before marker (pre ++ marker ++ mid ++ tail) (String.length pre) ->
      up_to_next marker mid tail ->
      mid = a ++ "-" ++ b ->
      PyStr.contains "-" a = false ->
      parse_input_request (pre ++ marker ++ mid ++ tail) s
      = (ok (PyStr.strip a, PyStr.strip b), s, []))
  /\ (forall (pre mid tail : string) (s : Session),
         none_before marker (pre ++ marker ++ mid ++ tail) (String.length pre) ->
         up_to_next marker mid tail ->
         PyStr.contains "-" mid = false ->
         parse_input_request (pre ++ marker ++ mid ++ tail) s
         = (ok (PyStr.strip mid, ""), s, []))
  /\ (forall s : Session,
         parse_input_request
           "...HUMAN_INPUT_REQUIRED: Business Address - Not present in the email text" s
         = (ok ("Business Address", "Not present in the email text"), s, [])).
Proof.
  split; [|split].
  - intros pre mid tail a b s Hpre Hnext Hmid Hdash.
    eapply parse_untrimmed; eauto using split_marker_piece.
  - intros pre mid tail s Hpre Hnext Hdash.
    eapply parse_no_dash; eauto using split_marker_piece.
  - intros s. reflexivity.
Qed.

Lemma parse_input_request_first_dash_witness :
  parse_input_request
    ("Stopped. " ++ marker ++ " Policy-Number - not in the e-mail " ++ (marker ++ " again"))
    blank
  = (ok ("Policy", "Number - not in the e-mail"), blank, [])
  /\ parse_input_request ("Stopped. " ++ marker ++ " Industry " ++ "") blank
     = (ok ("Industry", ""), blank, []).
Proof.
  split.
  - apply (proj1 parse_input_request_first_dash
             "Stopped. " " Policy-Number - not in the e-mail " (marker ++ " again")
             " Policy" "Number - not in the e-mail " blank).
    + intros i Hi.
      do 9 (destruct i as [|i]; [reflexivity|]). simpl in Hi; lia.
    + right. split; [reflexivity|].
      intros i Hi.
      do 35 (destruct i as [|i]; [reflexivity|]). simpl in Hi; lia.
    + reflexivity.
    + reflexivity.
  - apply (proj1 (proj2 parse_input_request_first_dash)
             "Stopped. " " Industry " "" blank).
    + intros i Hi.
      do 9 (destruct i as [|i]; [reflexivity|]). simpl in Hi; lia.
    + left. split; reflexivity.
    + reflexivity.
Defined.

(** C4 as stated fails when the marker occurs twice: the explanation
    stops at the second marker instead of running to the end. *)
Lemma explanation_stops_at_second_marker :
  result_of (parse_input_request
               "HUMAN_INPUT_REQUIRED: Limit - unknown HUMAN_INPUT_REQUIRED: Class" blank)
  = ok ("Limit", "unknown")
  /\ ~ (forall (pre rest a b : string) (s : Session),
           none_before marker (pre ++ marker ++ rest) (String.length pre) ->
           rest = a ++ "-" ++ b ->
           PyStr.contains "-" a = false ->
           result_of (parse_input_request (pre ++ marker ++ rest) s)
           = ok (PyStr.strip a, PyStr.strip b)).
Proof.
  split; [reflexivity|].
  intros H.
  specialize (H "" " Limit - unknown HUMAN_INPUT_REQUIRED: Class"
                " Limit " " unknown HUMAN_INPUT_REQUIRED: Class" blank).
  assert (Hpre : none_before marker
            ("" ++ marker ++ " Limit - unknown HUMAN_INPUT_REQUIRED: Class")
            (String.length "")) by (intros i Hi; simpl in Hi; lia).
  specialize (H Hpre eq_refl eq_refl).
  vm_compute in H. discriminate H.
Qed.

(** ** Running a method by cases *)

Ltac unfold_methods :=
  cbv [fill_applicant_form provide_human_input login_with_agent
       initialize_scrapybara cleanup run_automation store_human_input
       continue_form_filling continuation_failed request_human_input
       retry_safety_checks bind ret raise try_except get_self update
       set_status log await_run index_last session_of trace_of result_of step].

Ltac innermost_match :=
  match goal with
  | |- context [match ?x with _ => _ end] =>
      lazymatch x with
      | context [match _ with _ => _ end] => fail
      | _ => destruct x eqn:?
      end
  end.

(** The same with the fields of the session in sight. *)
Ltac unfold_session :=
  cbv [fill_applicant_form provide_human_input login_with_agent
       initialize_scrapybara cleanup run_automation store_human_input
       continue_form_filling continuation_failed request_human_input
       retry_safety_checks bind ret raise try_except get_self update
       set_status log await_run index_last index parse_input_request
       session_of trace_of result_of step
       status computer credentials email_content log_entries require_human_input
       human_input_prompt human_input_field human_inputs_collected instance_id
       with_status with_computer with_log_entries with_require_human_input
       with_human_input_prompt with_human_input_field with_human_inputs_collected
       email_body_of negb fst snd].

Ltac session_cases := unfold_session; repeat (innermost_match; unfold_session).

Lemma Status_eqb_neq (a b : Status) : Status_eqb a b = false <-> a <> b.
Proof. destruct a, b; simpl; split; congruence. Qed.

(** ** Rejected calls *)

(** C10: without a remote session handle, [login], [fillForm] and
    [provideHumanInput] return failure at once, whatever the status is;
    they log one error entry, assign no status and change nothing else. *)
Theorem no_computer_no_action (run : Runner) (v : string) (s : Session) :
  computer s = None ->
  login_with_agent run s = (ok false, logged_error not_initialized s, [])
  /\ fill_applicant_form run s = (ok (RBool false), logged_error not_initialized s, [])
  /\ provide_human_input v run s = (ok (RBool false), logged_error not_initialized s, [])
  /\ status (logged_error not_initialized s) = status s.
Proof.
  intros H.
  unfold login_with_agent, fill_applicant_form, provide_human_input, bind, get_self.
  rewrite H. repeat split.
Qed.

Lemma no_computer_no_action_witness :
  let s := with_computer None waiting in
  status s = waiting_for_input
  /\ status (session_of (provide_human_input "Plumbing" (answer "Done.") s))
     = waiting_for_input
  /\ result_of (provide_human_input "Plumbing" (answer "Done.") s) = ok (RBool false).
Proof.
  intros s.
  destruct (no_computer_no_action (answer "Done.") "Plumbing" s eq_refl)
    as (_ & _ & Hp & _).
  rewrite Hp. repeat split.
Defined.

(** C7, as amended: with the status other than [waiting_for_input],
    [provideHumanInput] returns failure and leaves the status, the
    collected inputs and the request untouched; the log grows by the one
    error entry that reports the rejection. *)
Theorem provide_human_input_not_waiting (v : string) (run : Runner) (s : Session) :
  status s <> waiting_for_input ->
  provide_human_input v run s
  = (ok (RBool false),
     logged_error (match computer s with
                   | None => not_initialized
                   | Some _ => "Not waiting for human input"
                   end) s,
     []).
Proof.
  intros H. apply Status_eqb_neq in H.
  unfold provide_human_input, bind, get_self.
  destruct (computer s); [|reflexivity].
  rewrite H. reflexivity.
Qed.

Lemma provide_human_input_not_waiting_witness :
  status ready <> waiting_for_input
  /\ provide_human_input "123 Main St" (answer "Done.") ready
     = (ok (RBool false), logged_error "Not waiting for human input" ready, []).
Proof.
  assert (H : status ready <> waiting_for_input) by discriminate.
  split; [exact H|].
  exact (provide_human_input_not_waiting "123 Main St" (answer "Done.") ready H).
Defined.

(** C7 as stated fails: the rejected call is not a no-op on the log. *)
Lemma provide_human_input_not_waiting_logs :
  status ready <> waiting_for_input
  /\ length (log_entries ready) = 3
  /\ length (log_entries
               (session_of (provide_human_input "123 Main St" (answer "Done.") ready))) = 4
  /\ log_entries (session_of (provide_human_input "123 Main St" (answer "Done.") ready))
     <> log_entries ready.
Proof.
  repeat split; try reflexivity; discriminate.
Qed.

(** C8, as amended: [login] with a credential missing or empty, and
    [fillForm] with no email body, return failure and log one error
    entry; the status stays what it was. *)
Theorem missing_data_keeps_status :
  (forall (run : Runner) (s : Session),
      Py.falsy (Py.get (credentials s) "destination_url")
      || Py.falsy (Py.get (credentials s) "username")
      || Py.falsy (Py.get (credentials s) "password") = true ->
      login_with_agent run s
      = (ok false,
         logged_error (match computer s with
                       | None => not_initialized
                       | Some _ => "Missing login credentials"
                       end) s,
         []))
  /\ (forall (run : Runner) (s : Session),
         email_body_of s = "" ->
         fill_applicant_form run s
         = (ok (RBool false),
            logged_error (match computer s with
                          | None => not_initialized
                          | Some _ =>
                              if Status_eqb (status s) logged_in
                              then "No email content available for form filling"
                              else "Must be logged in before filling form"
                          end) s,
            []))
  /\ (forall (msg : string) (s : Session), status (logged_error msg s) = status s).
Proof.
  split; [|split].
  - intros run s H.
    unfold login_with_agent, bind, get_self, try_except.
    destruct (computer s); [|reflexivity].
    rewrite H. reflexivity.
  - intros run s H.
    unfold fill_applicant_form, bind, get_self, try_except.
    destruct (computer s); [|reflexivity].
    destruct (Status_eqb (status s) logged_in); [|reflexivity].
    cbn [negb]. rewrite H. reflexivity.
  - reflexivity.
Qed.

Lemma missing_data_keeps_status_witness :
  login_with_agent (answer "Logged in.")
                   (with_data [("username", "agent1")] example_email ready)
  = (ok false,
     logged_error "Missing login credentials"
                  (with_data [("username", "agent1")] example_email ready),
     [])
  /\ fill_applicant_form (answer "Done.") (with_data example_credentials [] logged)
     = (ok (RBool false),
        logged_error "No email content available for form filling"
                     (with_data example_credentials [] logged),
        []).
Proof.
  split.
  - exact (proj1 missing_data_keeps_status (answer "Logged in.")
                 (with_data [("username", "agent1")] example_email ready) eq_refl).
  - exact (proj1 (proj2 missing_data_keeps_status) (answer "Done.")
                 (with_data example_credentials [] logged) eq_refl).
Defined.

(** C8 as stated fails: neither rejection moves the status to [error]. *)
Lemma missing_data_not_error :
  status (session_of (login_with_agent (answer "Logged in.")
                        (with_data [] example_email ready)))
  = initialized
  /\ result_of (login_with_agent (answer "Logged in.")
                  (with_data [] example_email ready)) = ok false
  /\ status (session_of (fill_applicant_form (answer "Done.")
                           (with_data example_credentials [] logged)))
     = logged_in
  /\ result_of (fill_applicant_form (answer "Done.")
                  (with_data example_credentials [] logged)) = ok (RBool false).
Proof. repeat split. Qed.

(** ** Dictionaries *)

Lemma get_set_same {V} (d : Py.dict V) (k : string) (v : V) :
  Py.get (Py.set d k v) k = Some v.
Proof.
  induction d as [|[k' v'] d IH]; simpl.
  - now rewrite String.eqb_refl.
  - destruct (String.eqb k' k) eqn:E; simpl; rewrite E; [reflexivity | exact IH].
Qed.

Lemma get_set_other {V} (d : Py.dict V) (k k0 : string) (v : V) :
  k0 <> k -> Py.get (Py.set d k v) k0 = Py.get d k0.
Proof.
  intros Hne. induction d as [|[k' v'] d IH]; simpl.
  - destruct (String.eqb_spec k k0); [congruence | reflexivity].
  - destruct (String.eqb_spec k' k) as [->|Hk]; simpl.
    + destruct (String.eqb_spec k k0); [congruence | reflexivity].
    + now rewrite IH.
Qed.

(** An assignment keeps the order of the keys; a new key goes last. *)
Lemma keys_set {V} (d : Py.dict V) (k : string) (v : V) :
  Py.keys (Py.set d k v)
  = match Py.get d k with
    | Some _ => Py.keys d
    | None => (Py.keys d ++ [k])%list
    end.
Proof.
  unfold Py.keys. induction d as [|[k' v'] d IH]; simpl; [reflexivity|].
  destruct (String.eqb k' k) eqn:E; simpl; [reflexivity|].
  rewrite IH. now destruct (Py.get d k).
Qed.

(** ** Handing over the human input *)

Lemma join_concat (sep : string) (l : list string) :
  PyStr.join sep l = String.concat sep l.
Proof.
  induction l as [|x l IH]; [reflexivity|].
  destruct l as [|y l]; [reflexivity|].
  cbn [PyStr.join String.concat] in *. now rewrite IH.
Qed.

(** Finding a text inside a concatenation, piece by piece. *)
Lemma anchor_skip (a t x : string) (P : string -> Prop) :
  (exists i r, t = i ++ x ++ r /\ P r) ->
  exists i r, a ++ t = i ++ x ++ r /\ P r.
Proof.
  intros (i & r & -> & H). exists (a ++ i), r.
  split; [now rewrite append_assoc | exact H].
Qed.

Lemma anchor_here (x r : string) (P : string -> Prop) :
  P r -> exists i r', x ++ r = i ++ x ++ r' /\ P r'.
Proof. intros H. exists "", r. split; [reflexivity | exact H]. Qed.

(** The instruction for the resumed agent: the email body, then one line
    for each collected field in the order given, then the contract on
    the marker. *)
Lemma continuation_prompt_holds (body : string) (collected : Py.dict string) :
  exists intro between rules closing,
    continuation_prompt body (human_inputs_text collected)
    = intro ++ body ++ between
      ++ String.concat (String "010" "")
           (map (fun fv => fst fv ++ ": " ++ snd fv) collected)
      ++ rules
      ++ "HUMAN_INPUT_REQUIRED: [field name] - [brief explanation]"
      ++ closing.
Proof.
  unfold human_inputs_text. rewrite join_concat.
  change nl with (String "010" "").
  set (listing := String.concat (String "010" "")
                    (map (fun fv => fst fv ++ ": " ++ snd fv) collected)).
  assert (H : exists intro r1,
             continuation_prompt body listing = intro ++ body ++ r1
             /\ exists between r2,
                  r1 = between ++ listing ++ r2
                  /\ exists rules closing,
                       r2 = rules
                            ++ "HUMAN_INPUT_REQUIRED: [field name] - [brief explanation]"
                            ++ closing /\ True).
  { unfold continuation_prompt.
    repeat first [ apply anchor_here | apply anchor_skip | exact I ]. }
  destruct H as (intro & r1 & -> & between & r2 & -> & rules & closing & -> & _).
  now exists intro, between, rules, closing.
Qed.

(** C6: called while waiting, [provideHumanInput] stores the value under
    the pending field (overwriting what was there, the other fields and
    the order of the keys kept, a new field last), clears the request
    flag, sets the status to [filling_form], and only then runs the agent
    on an instruction that holds the email body, then one line
    [field: value] for each collected field, old and new, in the order of
    the dictionary, and then the contract on the marker.  It is that
    instruction the agent is run on: if the run on it raises, the call
    ends in its [except] clause. *)
Theorem provide_human_input_stores_value
    (v : string) (run : Runner) (s : Session) (c : Computer) :
  computer s = Some c ->
  status s = waiting_for_input ->
  let field := human_input_field s in
  let collected := Py.set (human_inputs_collected s) field v in
  let instruction :=
    continuation_prompt (email_body_of s)
      (PyStr.join nl (map (fun fv => fst fv ++ ": " ++ snd fv) collected)) in
  exists s1 : Session,
    store_human_input v s = (ok instruction, s1, [filling_form])
    /\ human_inputs_collected s1 = collected
    /\ Py.get collected field = Some v
    /\ (forall k, k <> field -> Py.get collected k = Py.get (human_inputs_collected s) k)
    /\ Py.keys collected
       = match Py.get (human_inputs_collected s) field with
         | Some _ => Py.keys (human_inputs_collected s)
         | None => (Py.keys (human_inputs_collected s) ++ [field])%list
         end
    /\ require_human_input s1 = false
    /\ status s1 = filling_form
    /\ provide_human_input v run s
       = (let '(r, s2, t) :=
            try_except (continue_form_filling run instruction) continuation_failed s1 in
          (r, s2, filling_form :: t))
    /\ (exists intro between rules closing,
           instruction
           = intro ++ email_body_of s ++ between
             ++ String.concat (String "010" "")
                  (map (fun fv => fst fv ++ ": " ++ snd fv) collected)
             ++ rules
             ++ "HUMAN_INPUT_REQUIRED: [field name] - [brief explanation]"
             ++ closing)
    /\ (forall e,
           run form_agent (prompt_input instruction) 500 = run_raises e ->
           result_of (provide_human_input v run s) = ok (RMessage false (Py.exc_str e))
           /\ trace_of (provide_human_input v run s) = [filling_form; error]
           /\ status (session_of (provide_human_input v run s)) = error
           /\ human_inputs_collected (session_of (provide_human_input v run s))
              = collected
           /\ require_human_input (session_of (provide_human_input v run s)) = false).
Proof.
  intros Hc Hst field collected instruction.
  remember (session_of (store_human_input v s)) as s1 eqn:Hs1.
  assert (Hstore : store_human_input v s = (ok instruction, s1, [filling_form]))
    by (subst s1; reflexivity).
  assert (Hrun : provide_human_input v run s
                 = (let '(r, s2, t) :=
                      try_except (continue_form_filling run instruction)
                                 continuation_failed s1 in
                    (r, s2, filling_form :: t))).
  { unfold provide_human_input, bind at 1, get_self.
    rewrite Hc, Hst. cbn [Status_eqb negb].
    unfold try_except, bind at 1. rewrite Hstore.
    destruct (continue_form_filling run instruction s1) as [[[a|e] s2] t2].
    - reflexivity.
    - destruct (continuation_failed e s2) as [[r s3] t3]. reflexivity. }
  exists s1. split; [exact Hstore|].
  split; [subst s1; reflexivity|].
  split; [apply get_set_same|].
  split; [intros k Hk; now apply get_set_other|].
  split; [apply keys_set|].
  split; [subst s1; reflexivity|].
  split; [subst s1; reflexivity|].
  split; [exact Hrun|].
  split; [exact (continuation_prompt_holds (email_body_of s) collected)|].
  intros e He. rewrite Hrun.
  unfold try_except, continue_form_filling, bind, await_run, log, update.
  rewrite He. subst s1. repeat split.
Qed.

Lemma provide_human_input_stores_value_witness :
  human_input_field waiting = "Industry"
  /\ exists s1 : Session,
       human_inputs_collected s1 = [("Industry", "Plumbing")]
       /\ require_human_input s1 = false
       /\ status s1 = filling_form
       /\ provide_human_input "Plumbing" (answer "Form submitted successfully.") waiting
          = (let '(r, s2, t) :=
               try_except
                 (continue_form_filling (answer "Form submitted successfully.")
                    (continuation_prompt "Acme Corp, 123 Main St" "Industry: Plumbing"))
                 continuation_failed s1 in
             (r, s2, filling_form :: t)).
Proof.
  split; [reflexivity|].
  destruct (provide_human_input_stores_value "Plumbing"
              (answer "Form submitted successfully.") waiting
              {| instance := Some "inst-1" |} eq_refl eq_refl)
    as (s1 & _ & Hcol & _ & _ & _ & Hflag & Hst & Hrun & _ & _).
  exists s1. repeat split; assumption.
Defined.

(** ** The agent phase *)

Lemma index_last_app {A} (before : list A) (last : A) (s : Session) :
  index_last (before ++ [last])%list s = (ok last, s, []).
Proof. unfold index_last. now rewrite rev_unit. Qed.

Lemma set_last_app {A} (before : list A) (last x : A) :
  set_last (before ++ [last])%list x = (before ++ [x])%list.
Proof. unfold set_last. now rewrite removelast_last. Qed.

(** An agent phase that answers returns its result; the session gains at
    most the warning about the retry. *)
Lemma agent_answers_run (run : Runner) (input : RunInput) (r : RunResult) (s : Session) :
  agent_answers run input r ->
  exists extra : list LogEntry,
    (result <- await_run run form_agent input 500 ;; retry_safety_checks run result) s
    = (ok r, with_log_entries (log_entries s ++ extra)%list s, []).
Proof.
  intros [r0 last before Hrun Hlist Hfalse | r0 r1 last before vals Hrun Hlist Htrue Hdel Hrun2].
  - exists []. unfold bind, await_run, retry_safety_checks. rewrite Hrun. cbn [ret].
    unfold bind. rewrite Hlist, index_last_app, Hfalse. cbn [ret app].
    rewrite app_nil_r. now destruct s.
  - exists [{| level := Level.warn; message := "Safety checks failed, retrying..." |}].
    unfold bind, await_run, retry_safety_checks. rewrite Hrun. cbn [ret].
    unfold bind. rewrite Hlist, index_last_app, Htrue. cbn [log update].
    rewrite Hdel, set_last_app. unfold await_run. rewrite Hrun2. reflexivity.
Qed.

Ltac use_answer :=
  repeat first
    [ match goal with
      | H : ?run form_agent ?i 500 = run_returns _ |- context [?run form_agent ?j 500] =>
          change (run form_agent j 500) with (run form_agent i 500); rewrite H
      | H : to_input_list ?r = (_ ++ [_])%list |- context [to_input_list ?r] =>
          rewrite H
      | |- context [rev (_ ++ [_])] => rewrite rev_unit
      | |- context [set_last (_ ++ [_]) _] => rewrite set_last_app
      | H : Py.truthy ?v = _ |- context [Py.truthy ?v] => rewrite H
      | H : Py.del_item ?v ?k = _ |- context [Py.del_item ?v ?k] => rewrite H
      | H : forall s, parse_input_request ?o s = _ |- context [parse_input_request ?o ?x] =>
          rewrite (H x)
      end
    | progress unfold_methods ].

(** C3: once the agent phase has ended with a result, the marker in its
    final text decides the outcome.  With the marker, the request is set
    from the parsed field name and explanation, the status is
    [waiting_for_input] and the call returns the needs-input dictionary;
    without it, the status is [form_filled] and the call returns success
    ([True] from [fillForm], the success dictionary from
    [provideHumanInput]) with no request left pending. *)
Theorem marker_decides_outcome :
  (forall (run : Runner) (s : Session) (c : Computer) (r : RunResult),
      computer s = Some c ->
      status s = logged_in ->
      email_body_of s <> "" ->
      agent_answers run (prompt_input (initial_prompt (email_body_of s))) r ->
      let after := fill_applicant_form run s in
      if PyStr.contains marker (final_output r) then
        exists field explanation : string,
          (forall s0, parse_input_request (final_output r) s0
                      = (ok (field, explanation), s0, []))
          /\ result_of after
             = ok (RRequiresInput field
                     ("Please provide value for: " ++ field ++ nl ++ explanation))
          /\ status (session_of after) = waiting_for_input
          /\ require_human_input (session_of after) = true
          /\ human_input_field (session_of after) = field
          /\ human_input_prompt (session_of after)
             = "Please provide value for: " ++ field ++ nl ++ explanation
      else
        result_of after = ok (RBool true)
        /\ status (session_of after) = form_filled
        /\ require_human_input (session_of after) = require_human_input s)
  /\ (forall (v : string) (run : Runner) (s : Session) (c : Computer) (r : RunResult),
         computer s = Some c ->
         status s = waiting_for_input ->
         agent_answers run
           (prompt_input
              (continuation_prompt (email_body_of s)
                 (human_inputs_text
                    (Py.set (human_inputs_collected s) (human_input_field s) v)))) r ->
         let after := provide_human_input v run s in
         if PyStr.contains marker (final_output r) then
           exists field explanation : string,
             (forall s0, parse_input_request (final_output r) s0
                         = (ok (field, explanation), s0, []))
             /\ result_of after
                = ok (RRequiresInput field
                        ("Please provide value for: " ++ field ++ nl ++ explanation))
             /\ status (session_of after) = waiting_for_input
             /\ require_human_input (session_of after) = true
             /\ human_input_field (session_of after) = field
             /\ human_input_prompt (session_of after)
                = "Please provide value for: " ++ field ++ nl ++ explanation
         else
           result_of after = ok (RMessage true "Form filled successfully")
           /\ status (session_of after) = form_filled
           /\ require_human_input (session_of after) = false).
Proof.
  split.
  - intros run s c r Hc Hst Hbody Hans after. subst after.
    apply String.eqb_neq in Hbody.
    destruct (PyStr.contains marker (final_output r)) eqn:Hm.
    + destruct (parse_input_request_ok (final_output r) Hm) as (f & e & Hp).
      exists f, e. split; [exact Hp|].
      destruct Hans; unfold_methods; rewrite Hc, Hst; cbn [Status_eqb negb];
        rewrite Hbody; use_answer; rewrite Hm; use_answer; repeat split.
    + destruct Hans; unfold_methods; rewrite Hc, Hst; cbn [Status_eqb negb];
        rewrite Hbody; use_answer; rewrite Hm; use_answer; repeat split.
  - intros v run s c r Hc Hst Hans after. subst after.
    destruct (PyStr.contains marker (final_output r)) eqn:Hm.
    + destruct (parse_input_request_ok (final_output r) Hm) as (f & e & Hp).
      exists f, e. split; [exact Hp|].
      destruct Hans; unfold_methods; rewrite Hc, Hst; cbn [Status_eqb negb];
        use_answer; rewrite Hm; use_answer; repeat split.
    + destruct Hans; unfold_methods; rewrite Hc, Hst; cbn [Status_eqb negb];
        use_answer; rewrite Hm; use_answer; repeat split.
Qed.

Lemma marker_decides_outcome_witness :
  status (session_of
            (fill_applicant_form
               (answer "...HUMAN_INPUT_REQUIRED: Industry - no industry mentioned") logged))
  = waiting_for_input
  /\ status (session_of
               (provide_human_input "Plumbing" (answer "Form submitted successfully.")
                  waiting))
     = form_filled.
Proof.
  split.
  - pose proof (proj1 marker_decides_outcome
                  (answer "...HUMAN_INPUT_REQUIRED: Industry - no industry mentioned")
                  logged {| instance := Some "inst-1" |}
                  {| final_output := "...HUMAN_INPUT_REQUIRED: Industry - no industry mentioned";
                     to_input_list := [[("role", Py.PStr "assistant")]] |}
                  eq_refl eq_refl) as H.
    assert (Hbody : email_body_of logged <> "") by (vm_compute; discriminate).
    specialize (H Hbody
                  (answers_at_once
                     (answer "...HUMAN_INPUT_REQUIRED: Industry - no industry mentioned")
                     (prompt_input (initial_prompt (email_body_of logged)))
                     {| final_output := "...HUMAN_INPUT_REQUIRED: Industry - no industry mentioned";
                        to_input_list := [[("role", Py.PStr "assistant")]] |}
                     [("role", Py.PStr "assistant")] []
                     eq_refl eq_refl eq_refl)).
    cbv zeta in H.
    change (PyStr.contains marker
              (final_output
                 {| final_output := "...HUMAN_INPUT_REQUIRED: Industry - no industry mentioned";
                    to_input_list := [[("role", Py.PStr "assistant")]] |}))
      with true in H.
    cbv iota in H.
    destruct H as (f & e & _ & _ & Hst & _). exact Hst.
  - pose proof (proj2 marker_decides_outcome "Plumbing"
                  (answer "Form submitted successfully.")
                  waiting {| instance := Some "inst-1" |}
                  {| final_output := "Form submitted successfully.";
                     to_input_list := [[("role", Py.PStr "assistant")]] |}
                  eq_refl eq_refl
                  (answers_at_once
                     (answer "Form submitted successfully.")
                     (prompt_input
                        (continuation_prompt (email_body_of waiting)
                           (human_inputs_text
                              (Py.set (human_inputs_collected waiting)
                                 (human_input_field waiting) "Plumbing"))))
                     {| final_output := "Form submitted successfully.";
                        to_input_list := [[("role", Py.PStr "assistant")]] |}
                     [("role", Py.PStr "assistant")] []
                     eq_refl eq_refl eq_refl)) as H.
    cbv zeta in H.
    change (PyStr.contains marker
              (final_output
                 {| final_output := "Form submitted successfully.";
                    to_input_list := [[("role", Py.PStr "assistant")]] |}))
      with false in H.
    cbv iota in H.
    destruct H as (_ & Hst & _). exact Hst.
Defined.

(** ** The retry after a safety check *)

(** A list of pending checks makes the [del] statement raise: the agent
    is not run again. *)
Lemma retry_safety_checks_list
    (run : Runner) (r : RunResult) (before : list Item) (last : Item)
    (check : Py.Val) (checks : list Py.Val) (s : Session) :
  to_input_list r = (before ++ [last])%list ->
  Py.get_val last "pending_safety_checks" = Py.PList (check :: checks) ->
  retry_safety_checks run r s
  = (raised (Py.TypeError "list indices must be integers or slices, not str"),
     with_log_entries
       (log_entries s
        ++ [{| level := Level.warn; message := "Safety checks failed, retrying..." |}])%list
       s,
     []).
Proof.
  intros Hlist Hval.
  unfold retry_safety_checks, bind.
  rewrite Hlist, index_last_app, Hval. reflexivity.
Qed.

(** C5 fails on the code: a result that carries a pending safety check
    ends [fillForm] and [provideHumanInput] in their [except] clause, with
    the status [error] and a failure returned, before any second run. *)
Theorem safety_check_retry_raises :
  fill_applicant_form flags_safety_check logged
  = (ok (RBool false),
     with_status error
       (with_log_entries
          (log_entries logged
           ++ [{| level := Level.info;
                  message := "Starting form filling process with OpenAI Agent..." |};
               {| level := Level.info;
                  message := "Agent initialized, starting form filling process..." |};
               {| level := Level.warn; message := "Safety checks failed, retrying..." |};
               {| level := Level.error;
                  message := "Error during form filling with agent: "
                             ++ "list indices must be integers or slices, not str" |}])%list
          logged),
     [filling_form; error])
  /\ result_of (provide_human_input "Plumbing" flags_safety_check waiting)
     = ok (RMessage false "list indices must be integers or slices, not str")
  /\ status (session_of (provide_human_input "Plumbing" flags_safety_check waiting))
     = error
  /\ trace_of (provide_human_input "Plumbing" flags_safety_check waiting)
     = [filling_form; error].
Proof. repeat split. Qed.

(** ** The status machine *)

Lemma follows_app (g : Status -> Status -> bool) (cur : Status) (t1 t2 : list Status) :
  follows g cur (t1 ++ t2)%list
  = follows g cur t1 && follows g (status_after cur t1) t2.
Proof.
  revert cur; induction t1 as [|a t1 IH]; intros cur.
  - reflexivity.
  - cbn [app follows status_after]. now rewrite IH, andb_assoc.
Qed.

Lemma status_after_app (cur : Status) (t1 t2 : list Status) :
  status_after cur (t1 ++ t2)%list = status_after (status_after cur t1) t2.
Proof. revert cur; induction t1 as [|a t1 IH]; intros cur; [reflexivity | apply IH]. Qed.

(** One operation: its assignments stay in the graph of the code, and
    the last of them is the status it leaves. *)
Lemma step_trace (o : Op) (s : Session) :
  follows code_edge (status s) (snd (step o s)) = true
  /\ status (fst (step o s)) = status_after (status s) (snd (step o s)).
Proof.
  destruct s as [cr em iid st le comp flag pr fld col].
  destruct o; session_cases; destruct st; try discriminate; split; reflexivity.
Qed.

Lemma run_ops_trace (ops : list Op) (s : Session) :
  follows code_edge (status s) (snd (run_ops ops s)) = true
  /\ status (fst (run_ops ops s)) = status_after (status s) (snd (run_ops ops s)).
Proof.
  revert s; induction ops as [|o ops IH]; intros s.
  - split; reflexivity.
  - cbn [run_ops].
    destruct (step_trace o s) as [Hf Hs].
    destruct (step o s) as [s1 t1]. cbn [fst snd] in Hf, Hs.
    destruct (IH s1) as [Hf' Hs'].
    destruct (run_ops ops s1) as [s2 t2]. cbn [fst snd] in *.
    rewrite follows_app, status_after_app, Hf, <- Hs, Hf', Hs'. split; reflexivity.
Qed.

Lemma init_status (l : LoadOutcome) : status (__init__ l) = initialized.
Proof. destruct l; reflexivity. Qed.

(** C1, as amended: over every sequence of operations on a fresh
    session, each change of status is an edge of the graph of section 4.3
    or enters [initializing] or [logging_in], which [initialize] and
    [login] assign whatever the status was; [initialized] is entered from
    [initializing] only. *)
Theorem status_follows_code_graph :
  (forall (l : LoadOutcome) (ops : list Op),
      follows code_edge initialized (snd (run_ops ops (__init__ l))) = true)
  /\ (forall a b : Status,
         code_edge a b = true ->
         edge a b = true \/ b = initializing \/ b = logging_in)
  /\ (forall a : Status, code_edge a initialized = true -> a = initializing).
Proof.
  split; [|split].
  - intros l ops. rewrite <- (init_status l). apply run_ops_trace.
  - intros a b H. destruct a, b; try discriminate H; auto.
  - intros a H. destruct a; try discriminate H; reflexivity.
Qed.

Lemma status_follows_code_graph_witness :
  edge logged_in logging_in = false
  /\ (edge logged_in logging_in = true
      \/ logging_in = initializing \/ logging_in = logging_in)
  /\ initializing = initializing.
Proof.
  split; [reflexivity|]. split.
  - exact (proj1 (proj2 status_follows_code_graph) logged_in logging_in eq_refl).
  - exact (proj2 (proj2 status_follows_code_graph) initializing eq_refl).
Defined.

(** C1 as stated fails: a second [login] goes from [logged_in] back to
    [logging_in], which is no edge of the graph, and the first
    [initialize] already re-enters [initialized]. *)
Lemma second_login_leaves_graph :
  let ops := [Initialize (init_ok "inst-1");
              Login (answer "Logged in."); Login (answer "Logged in.")] in
  let trace := snd (run_ops ops (__init__ (loaded example_credentials example_email))) in
  trace = [initializing; initialized; logging_in; logged_in; logging_in; logged_in]
  /\ follows edge initialized trace = false
  /\ enters_initialized initialized trace = true.
Proof. repeat split. Qed.

(** ** The pending request *)

Lemma step_waiting_pending (o : Op) (s : Session) :
  (status s = waiting_for_input -> require_human_input s = true) ->
  status (fst (step o s)) = waiting_for_input ->
  require_human_input (fst (step o s)) = true.
Proof.
  destruct s as [cr em iid st le comp flag pr fld col].
  destruct o; session_cases; intros H G;
    try discriminate G; try reflexivity; try (apply H; exact G).
Qed.

Lemma step_request (o : Op) (s : Session) :
  (request_pending s <-> status s = waiting_for_input) ->
  (status s = waiting_for_input -> respects_request o = true) ->
  (request_pending (fst (step o s)) <-> status (fst (step o s)) = waiting_for_input).
Proof.
  unfold request_pending.
  destruct s as [cr em iid st le comp flag pr fld col].
  destruct o; cbv [respects_request]; session_cases; intros H G;
    try exact H;
    destruct st; try discriminate;
    destruct flag; split; intros E; try reflexivity; try discriminate E;
    try (exfalso; first [ discriminate (proj1 H eq_refl)
                        | discriminate (proj2 H eq_refl)
                        | discriminate (G eq_refl) ]).
Qed.

Lemma run_ops_waiting_pending (ops : list Op) (s : Session) :
  (status s = waiting_for_input -> require_human_input s = true) ->
  status (fst (run_ops ops s)) = waiting_for_input ->
  require_human_input (fst (run_ops ops s)) = true.
Proof.
  revert s; induction ops as [|o ops IH]; intros s H.
  - exact H.
  - cbn [run_ops].
    pose proof (step_waiting_pending o s H) as H1.
    destruct (step o s) as [s1 t1]. cbn [fst] in H1.
    specialize (IH s1 H1).
    destruct (run_ops ops s1) as [s2 t2]. exact IH.
Qed.

(** C2, as amended: after every sequence of operations on a fresh
    session, a status of [waiting_for_input] comes with a pending
    request; and the request is pending exactly when the status is
    [waiting_for_input] as long as no [initialize], [login] or [runFull]
    is applied to a waiting session. *)
Theorem request_pending_when_waiting :
  (forall (l : LoadOutcome) (ops : list Op),
      status (fst (run_ops ops (__init__ l))) = waiting_for_input ->
      request_pending (fst (run_ops ops (__init__ l))))
  /\ (forall (o : Op) (s : Session),
         (request_pending s <-> status s = waiting_for_input) ->
         (status s = waiting_for_input -> respects_request o = true) ->
         (request_pending (fst (step o s))
          <-> status (fst (step o s)) = waiting_for_input)).
Proof.
  split.
  - intros l ops. apply run_ops_waiting_pending.
    rewrite init_status. discriminate.
  - exact step_request.
Qed.

Lemma request_pending_when_waiting_witness :
  request_pending
    (fst (run_ops
            [Initialize (init_ok "inst-1"); Login (answer "Logged in.");
             FillForm (answer "...HUMAN_INPUT_REQUIRED: Industry - no industry mentioned")]
            (__init__ (loaded example_credentials example_email))))
  /\ (request_pending
        (fst (step (ProvideHumanInput "Plumbing" (answer "Form submitted successfully."))
                   waiting))
      <-> status (fst (step (ProvideHumanInput "Plumbing"
                               (answer "Form submitted successfully.")) waiting))
          = waiting_for_input).
Proof.
  split.
  - apply (proj1 request_pending_when_waiting
             (loaded example_credentials example_email)
             [Initialize (init_ok "inst-1"); Login (answer "Logged in.");
              FillForm (answer "...HUMAN_INPUT_REQUIRED: Industry - no industry mentioned")]).
    vm_compute. reflexivity.
  - apply (proj2 request_pending_when_waiting
             (ProvideHumanInput "Plumbing" (answer "Form submitted successfully."))
             waiting).
    + vm_compute. split; reflexivity.
    + intros _. reflexivity.
Defined.

(** C2 as stated fails: [initialize] on a waiting session leaves the
    request flag set while the status moves on. *)
Lemma request_survives_initialize :
  let s := fst (step (Initialize (init_ok "inst-2")) waiting) in
  status waiting = waiting_for_input
  /\ require_human_input s = true
  /\ human_input_field s = "Industry"
  /\ status s = initialized
  /\ ~ (request_pending s <-> status s = waiting_for_input).
Proof.
  repeat split.
  intros [H _]. discriminate (H eq_refl).
Qed.

(** ** The driver *)

(** What [run_automation] can return, and the status it leaves with each
    result.  A failure is returned either with the status [error] or, when
    [fill_applicant_form] has rejected an empty email body, with the
    status [logged_in]. *)
Lemma run_automation_outcomes (env : InitOutcome) (run : Runner) (s : Session) :
  let after := run_automation env run s in
  match result_of after with
  | ok (RWaiting (RRequiresInput _ _)) =>
      status (session_of after) = waiting_for_input
      /\ require_human_input (session_of after) = true
  | ok (RMessage true _) => status (session_of after) = completed
  | ok (RMessage false m) =>
      status (session_of after) = error
      \/ (m = "Form filling failed"
          /\ status (session_of after) = logged_in
          /\ email_body_of s = "")
  | _ => False
  end.
Proof.
  destruct s as [cr em iid st le comp flag pr fld col].
  session_cases; auto.
  all: try match goal with
           | H : Status_eqb _ _ = false |- _ => cbv in H; discriminate H
           end.
  all: right; repeat split; cbv [email_body_of email_content];
    repeat match goal with
           | H : Py.get _ "body" = _ |- _ => rewrite H
           | H : String.eqb ?x "" = true |- _ => apply String.eqb_eq in H; subst x
           end; reflexivity.
Qed.

(** Driven by [run_automation] alone, a fresh session stays inside the
    graph of section 4.3. *)
Lemma fresh_run_follows_graph (l : LoadOutcome) (env : InitOutcome) (run : Runner) :
  follows edge initialized (trace_of (run_automation env run (__init__ l))) = true.
Proof.
  destruct l; cbv [__init__ _load_data blank with_data];
    session_cases; reflexivity.
Qed.

(** C9 fails on the code in one case: when the email body is missing,
    [run_automation] returns its failure with the status left at
    [logged_in], where a failed [initialize] or [login] ends in [error]. *)
Theorem run_automation_missing_body :
  let after := run_automation (init_ok "inst-1") (answer "Logged in.")
                 (__init__ (loaded example_credentials [])) in
  result_of after = ok (RMessage false "Form filling failed")
  /\ trace_of after = [initializing; initialized; logging_in; logged_in]
  /\ status (session_of after) = logged_in
  /\ status (session_of (run_automation (init_ok "inst-1") (answer "Logged in.")
                           (__init__ (loaded [] example_email))))
     = error.
Proof. cbv zeta. split; [|split; [|split]]; vm_compute; reflexivity. Qed.

(** ** What no operation does *)

Lemma del_none_get {V} (d : Py.dict V) (k : string) :
  Py.del d k = None <-> Py.get d k = None.
Proof.
  induction d as [|[k' v'] d IH]; simpl; [tauto|].
  destruct (String.eqb k' k); [split; discriminate|].
  destruct (Py.del d k) as [d0|]; simpl.
  - split; [discriminate|]. intros H. apply IH in H. discriminate H.
  - split; [intros _; now apply IH | reflexivity].
Qed.

(** Every exception the agent runtime, the remote desktop or the parsing
    can raise is caught inside the method that met it. *)
Theorem no_exception_escapes
    (env : InitOutcome) (run : Runner) (v : string) (stop : option Py.Exc) (s : Session) :
  returns_normally (initialize_scrapybara env s)
  /\ returns_normally (login_with_agent run s)
  /\ returns_normally (fill_applicant_form run s)
  /\ returns_normally (provide_human_input v run s)
  /\ returns_normally (run_automation env run s)
  /\ returns_normally (cleanup stop s).
Proof.
  unfold returns_normally.
  destruct s as [cr em iid st le comp flag pr fld col].
  repeat split; session_cases; eexists; reflexivity.
Qed.

Ltac log_grows :=
  first [ exists []; rewrite app_nil_r; reflexivity
        | eexists; rewrite <- ?app_assoc; reflexivity ].

Ltac keys_grow :=
  first [ exists []; rewrite app_nil_r; reflexivity
        | rewrite keys_set;
          match goal with
          | |- context [Py.get ?d ?k] =>
              destruct (Py.get d k);
              [ exists []; rewrite app_nil_r; reflexivity | eexists; reflexivity ]
          end ].

(** One operation, all at once: what it keeps, that the prompt goes on
    naming the field, and that only [run_automation] assigns
    [completed]. *)
Lemma step_keeps (o : Op) (s : Session) :
  keeps s (fst (step o s))
  /\ (prompt_names_field s -> prompt_names_field (fst (step o s)))
  /\ (is_run_full o = false ->
      status (fst (step o s)) = completed -> status s = completed).
Proof.
  unfold prompt_names_field.
  destruct s as [cr em iid st le comp flag pr fld col].
  destruct o; cbv [is_run_full]; session_cases;
    (split; [constructor; unfold_session;
             [reflexivity | reflexivity | reflexivity | log_grows
             | intros H; first [exact H | discriminate] | keys_grow]
            | split;
              [ intros H; first [exact H | right; eexists; reflexivity]
              | intros H G; first [exact G | discriminate G | discriminate H] ]]).
Qed.

Lemma keeps_refl (s : Session) : keeps s s.
Proof.
  constructor; try reflexivity; try (exists []; now rewrite app_nil_r).
  intros H; exact H.
Qed.

Lemma keeps_trans (a b c : Session) : keeps a b -> keeps b c -> keeps a c.
Proof.
  intros [C1 E1 I1 [x1 L1] H1 [y1 K1]] [C2 E2 I2 [x2 L2] H2 [y2 K2]].
  constructor.
  - congruence.
  - congruence.
  - congruence.
  - exists (x1 ++ x2)%list. now rewrite L2, L1, app_assoc.
  - auto.
  - exists (y1 ++ y2)%list. now rewrite K2, K1, app_assoc.
Qed.

Lemma run_ops_keeps (ops : list Op) (s : Session) : keeps s (fst (run_ops ops s)).
Proof.
  revert s; induction ops as [|o ops IH]; intros s; [apply keeps_refl|].
  cbn [run_ops].
  pose proof (proj1 (step_keeps o s)) as H1.
  destruct (step o s) as [s1 t1]. cbn [fst] in H1.
  specialize (IH s1). destruct (run_ops ops s1) as [s2 t2]. cbn [fst] in *.
  eapply keeps_trans; eassumption.
Qed.

(** The log is append-only: whatever operations run, the entries that
    were there stay, in place, and new ones come after them. *)
Theorem log_append_only (ops : list Op) (s : Session) :
  exists extra,
    log_entries (fst (run_ops ops s)) = (log_entries s ++ extra)%list.
Proof. exact (keeps_log _ _ (run_ops_keeps ops s)). Qed.

(** The credentials and the email content are read at construction and
    never assigned again. *)
Theorem loaded_data_never_changes (ops : list Op) (s : Session) :
  credentials (fst (run_ops ops s)) = credentials s
  /\ email_content (fst (run_ops ops s)) = email_content s.
Proof.
  split;
    [exact (keeps_credentials _ _ (run_ops_keeps ops s))
    | exact (keeps_email_content _ _ (run_ops_keeps ops s))].
Qed.

(** The instance id written to [instance_id.txt] is never read back:
    [self.instance_id] is [None] from construction on, so
    [initialize_scrapybara] always asks for a new instance. *)
Theorem never_resumes (l : LoadOutcome) (ops : list Op) :
  instance_id (fst (run_ops ops (__init__ l))) = None.
Proof.
  rewrite (keeps_instance_id _ _ (run_ops_keeps ops (__init__ l))).
  now destruct l.
Qed.

(** Once [self.computer] is set no operation clears it, [cleanup]
    included: the guards on the handle never fire again. *)
Theorem handle_never_released (ops : list Op) (s : Session) :
  computer s <> None -> computer (fst (run_ops ops s)) <> None.
Proof. exact (keeps_computer _ _ (run_ops_keeps ops s)). Qed.

Lemma handle_never_released_witness :
  computer ready <> None
  /\ computer (fst (run_ops [Cleanup None; Cleanup (Some (Py.Exception "gone"))] ready))
     <> None.
Proof.
  assert (H : computer ready <> None) by discriminate.
  split; [exact H|].
  exact (handle_never_released
           [Cleanup None; Cleanup (Some (Py.Exception "gone"))] ready H).
Defined.

(** The fields for which a human gave a value are never dropped or
    reordered: new fields come after the ones already collected. *)
Theorem collected_fields_only_grow (ops : list Op) (s : Session) :
  exists extra,
    Py.keys (human_inputs_collected (fst (run_ops ops s)))
    = (Py.keys (human_inputs_collected s) ++ extra)%list.
Proof. exact (keeps_collected _ _ (run_ops_keeps ops s)). Qed.

(** On a session built by the constructor, the prompt kept for the human
    always names the field kept beside it. *)
Theorem prompt_always_names_field (l : LoadOutcome) (ops : list Op) :
  prompt_names_field (fst (run_ops ops (__init__ l))).
Proof.
  assert (H0 : prompt_names_field (__init__ l))
    by (left; destruct l; split; reflexivity).
  revert H0. generalize (__init__ l) as s.
  induction ops as [|o ops IH]; intros s H; [exact H|].
  cbn [run_ops].
  pose proof (proj1 (proj2 (step_keeps o s)) H) as H1.
  destruct (step o s) as [s1 t1]. cbn [fst] in H1.
  specialize (IH s1 H1). destruct (run_ops ops s1) as [s2 t2]. exact IH.
Qed.

(** Only [run_automation] assigns [completed]: no sequence of the other
    operations, [provide_human_input] among them, ends a run that was not
    completed in the status [completed]. *)
Theorem completed_only_by_run_automation (ops : list Op) (s : Session) :
  Forall (fun o => is_run_full o = false) ops ->
  status s <> completed ->
  status (fst (run_ops ops s)) <> completed.
Proof.
  revert s; induction ops as [|o ops IH]; intros s Hall Hs; [exact Hs|].
  inversion Hall as [|o' ops' Ho Hops]; subst.
  cbn [run_ops].
  pose proof (proj2 (proj2 (step_keeps o s)) Ho) as H1.
  destruct (step o s) as [s1 t1]. cbn [fst] in H1.
  specialize (IH s1 Hops). destruct (run_ops ops s1) as [s2 t2]. cbn [fst] in *.
  apply IH. intros E. apply Hs, H1, E.
Qed.

Lemma completed_only_by_run_automation_witness :
  status
    (fst (run_ops [ProvideHumanInput "Plumbing" (answer "Form submitted successfully.")]
                  waiting))
  <> completed.
Proof.
  apply (completed_only_by_run_automation
           [ProvideHumanInput "Plumbing" (answer "Form submitted successfully.")] waiting).
  - repeat constructor.
  - vm_compute. discriminate.
Defined.

(** Without the three credentials no [login] ever succeeds, whatever was
    done to the session before. *)
Theorem no_login_without_credentials (l : LoadOutcome) (ops : list Op) (run : Runner) :
  credentials_present (__init__ l) = false ->
  result_of (login_with_agent run (fst (run_ops ops (__init__ l)))) = ok false.
Proof.
  intros H.
  pose proof (keeps_credentials _ _ (run_ops_keeps ops (__init__ l))) as Hc.
  unfold credentials_present in H. rewrite <- Hc in H.
  apply negb_false_iff in H.
  unfold login_with_agent, bind, get_self, try_except.
  destruct (computer (fst (run_ops ops (__init__ l)))); [|reflexivity].
  rewrite H. reflexivity.
Qed.

Lemma no_login_without_credentials_witness :
  result_of
    (login_with_agent (answer "Logged in.")
       (fst (run_ops [Initialize (init_ok "inst-1")]
                     (__init__ (load_raises (Py.Exception "bad JSON"))))))
  = ok false.
Proof.
  exact (no_login_without_credentials (load_raises (Py.Exception "bad JSON"))
           [Initialize (init_ok "inst-1")] (answer "Logged in.") eq_refl).
Defined.

(** ** Logging in *)

(** [login] succeeds exactly when the handle is set, the three
    credentials are there and the agent run returns; what the agent
    answers is not looked at, and the status is then [logged_in]. *)
Theorem login_succeeds_iff (run : Runner) (s : Session) :
  (result_of (login_with_agent run s) = ok true
   <-> computer s <> None
       /\ credentials_present s = true
       /\ exists r,
            run login_agent
                (prompt_input
                   (login_prompt
                      (Py.str_of (Py.get (credentials s) "destination_url"))
                      (Py.str_of (Py.get (credentials s) "username"))
                      (Py.str_of (Py.get (credentials s) "password"))))
                100
            = run_returns r)
  /\ (result_of (login_with_agent run s) = ok true ->
      status (session_of (login_with_agent run s)) = logged_in).
Proof.
  unfold credentials_present.
  destruct (computer s) as [c|] eqn:Hc.
  - destruct (Py.falsy (Py.get (credentials s) "destination_url")
              || Py.falsy (Py.get (credentials s) "username")
              || Py.falsy (Py.get (credentials s) "password")) eqn:Hf.
    + unfold_methods. rewrite !Hc, !Hf. cbn [fst snd negb].
      split; [split|]; [discriminate | | discriminate].
      intros (_ & H & _). discriminate H.
    + destruct (run login_agent
                  (prompt_input
                     (login_prompt
                        (Py.str_of (Py.get (credentials s) "destination_url"))
                        (Py.str_of (Py.get (credentials s) "username"))
                        (Py.str_of (Py.get (credentials s) "password"))))
                  100) as [e|r] eqn:Hr;
        unfold_methods; rewrite !Hc, !Hf, !Hr; cbn [fst snd negb].
      * split; [split|]; [discriminate | | discriminate].
        intros (_ & _ & r & H). discriminate H.
      * split; [split|]; [ | reflexivity | reflexivity].
        intros _. split; [discriminate|]. split; [reflexivity|]. now exists r.
  - unfold_methods. rewrite !Hc. cbn [fst snd].
    split; [split|]; [discriminate | | discriminate].
    intros (H & _). now elim H.
Qed.

Lemma login_succeeds_iff_witness :
  result_of (login_with_agent (answer "Logged in.") ready) = ok true
  /\ status (session_of (login_with_agent (answer "Logged in.") ready)) = logged_in.
Proof.
  assert (H : result_of (login_with_agent (answer "Logged in.") ready) = ok true).
  { apply (proj1 (login_succeeds_iff (answer "Logged in.") ready)).
    split; [vm_compute; discriminate|]. split; [reflexivity|].
    eexists. reflexivity. }
  split; [exact H|].
  exact (proj2 (login_succeeds_iff (answer "Logged in.") ready) H).
Defined.

(** A failed [initialize] that got as far as building the adapter leaves
    the handle set: [login] on that session is not rejected, and succeeds
    if the agent run returns. *)
Theorem login_after_failed_initialize
    (env : InitOutcome) (run : Runner) (s : Session) (r : RunResult) :
  (forall e, env <> ctor_raises e) ->
  (forall id, env <> init_ok id) ->
  credentials_present s = true ->
  run login_agent
      (prompt_input
         (login_prompt
            (Py.str_of (Py.get (credentials s) "destination_url"))
            (Py.str_of (Py.get (credentials s) "username"))
            (Py.str_of (Py.get (credentials s) "password"))))
      100
  = run_returns r ->
  let failed := initialize_scrapybara env s in
  result_of failed = ok false
  /\ status (session_of failed) = error
  /\ result_of (login_with_agent run (session_of failed)) = ok true
  /\ status (session_of (login_with_agent run (session_of failed))) = logged_in.
Proof.
  intros Hctor Hok Hcred Hrun failed. subst failed.
  unfold credentials_present in Hcred. apply negb_true_iff in Hcred.
  destruct s as [cr em iid st le comp flag pr fld col].
  cbn [credentials] in Hcred, Hrun.
  destruct env as [e|inst e|id e|id];
    [now elim (Hctor e) | | | now elim (Hok id)];
    unfold_session; rewrite Hcred; unfold_session; rewrite Hrun; repeat split.
Qed.

Lemma login_after_failed_initialize_witness :
  let failed :=
    initialize_scrapybara
      (initialize_raises None (Py.Exception "no capacity"))
      (__init__ (loaded example_credentials example_email)) in
  status (session_of failed) = error
  /\ status (session_of (login_with_agent (answer "Logged in.") (session_of failed)))
     = logged_in.
Proof.
  intros failed.
  destruct (login_after_failed_initialize
              (initialize_raises None (Py.Exception "no capacity"))
              (answer "Logged in.")
              (__init__ (loaded example_credentials example_email))
              {| final_output := "Logged in.";
                 to_input_list := [[("role", Py.PStr "assistant")]] |})
    as (_ & Hst & _ & Hlog).
  - intros e; discriminate.
  - intros id; discriminate.
  - reflexivity.
  - reflexivity.
  - split; [exact Hst | exact Hlog].
Defined.

(** ** Cleaning up *)

(** [cleanup] only writes to the log: nothing without a handle, and with
    one the entry that announces the stop followed by the entry that
    reports how it ended.  The status and the handle stay as they were. *)
Lemma cleanup_only_logs (stop : option Py.Exc) (s : Session) :
  cleanup stop s
  = (ok tt,
     with_log_entries
       (log_entries s
        ++ match computer s with
           | None => []
           | Some _ =>
               [{| level := Level.info; message := "Stopping Scrapybara instance..." |};
                match stop with
                | None =>
                    {| level := Level.info; message := "Scrapybara instance stopped" |}
                | Some e =>
                    {| level := Level.error;
                       message := "Error stopping Scrapybara: " ++ Py.exc_str e |}
                end]
           end)%list
       s,
     []).
Proof.
  destruct s as [cr em iid st le comp flag pr fld col].
  destruct comp as [c|], stop as [e|]; unfold_session;
    rewrite <- ?app_assoc, ?app_nil_r; reflexivity.
Qed.

(** ** Reporting the status *)

Lemma recent_suffix {A} (l : list A) :
  length (recent l) = Nat.min (length l) 10
  /\ exists older, l = (older ++ recent l)%list.
Proof.
  unfold recent. destruct (Nat.ltb 10 (length l)) eqn:E.
  - apply Nat.ltb_lt in E. split.
    + rewrite length_skipn. lia.
    + exists (firstn (length l - 10) l). now rewrite firstn_skipn.
  - apply Nat.ltb_ge in E. split; [lia | now exists []].
Qed.

(** [get_status] shows the ten most recent log entries, or all of them
    when there are no more than ten, in the order of the log. *)
Theorem get_status_recent (s : Session) :
  length (info_log_entries (get_status s)) = Nat.min (length (log_entries s)) 10
  /\ exists older,
       log_entries s = (older ++ info_log_entries (get_status s))%list.
Proof. exact (recent_suffix (log_entries s)). Qed.

(** ** What the parser returns *)

Lemma contains_char_app (d c : ascii) (s : string) :
  d <> c ->
  PyStr.contains (String d "") s = false ->
  PyStr.contains (String d "") (s ++ String c "") = false.
Proof.
  intros Hdc. induction s as [|x s IH]; intros H.
  - cbn [append]. rewrite contains_char. now destruct (ascii_dec d c).
  - cbn [append]. rewrite contains_char in *.
    destruct (ascii_dec d x); [discriminate | now apply IH].
Qed.

(** The first piece of a text split on a character is free of it. *)
Lemma split_char_head (d : ascii) (s cur : string) :
  PyStr.contains (String d "") cur = false ->
  exists x l,
    PyStr.split_from (String d "") s 0 cur = x :: l
    /\ PyStr.contains (String d "") x = false.
Proof.
  revert cur; induction s as [|c s IH]; intros cur H.
  - exists cur, []. split; [reflexivity | exact H].
  - cbn [PyStr.split_from prefix].
    destruct (ascii_dec d c) as [->|Hn].
    + rewrite prefix_nil. eexists _, _. split; [reflexivity | exact H].
    + apply IH. now apply contains_char_app.
Qed.

(** Whatever the agent wrote, the field name handed to the human has no
    [-] in it (a hyphenated name is cut at its hyphen) and neither the
    field name nor the explanation has white space at either end. *)
Theorem parsed_field_has_no_dash
    (out : string) (s s' : Session) (t : list Status) (field explanation : string) :
  parse_input_request out s = (ok (field, explanation), s', t) ->
  PyStr.contains "-" field = false
  /\ PyStr.strip field = field
  /\ PyStr.strip explanation = explanation.
Proof.
  unfold parse_input_request, bind, index.
  destruct (nth_error (PyStr.split marker out) 1) as [piece|]; [|discriminate].
  cbn [ret].
  destruct (split_char_head "-" (PyStr.strip piece) "" eq_refl) as (x & l & Hx & Hd).
  unfold PyStr.split. rewrite Hx. cbn [nth_error ret tl].
  intros H. injection H as <- <- _ _.
  repeat split.
  - unfold PyStr.strip. now apply contains_char_rstrip, contains_char_lstrip.
  - apply strip_idem.
  - apply strip_idem.
Qed.

Lemma parsed_field_has_no_dash_witness :
  parse_input_request "I need help. HUMAN_INPUT_REQUIRED: Co-Applicant Name - not given" blank
  = (ok ("Co", "Applicant Name - not given"), blank, [])
  /\ PyStr.contains "-" "Co" = false.
Proof.
  assert (H : parse_input_request
                "I need help. HUMAN_INPUT_REQUIRED: Co-Applicant Name - not given" blank
              = (ok ("Co", "Applicant Name - not given"), blank, []))
    by (vm_compute; reflexivity).
  split; [exact H|].
  exact (proj1 (parsed_field_has_no_dash _ _ _ _ _ _ H)).
Defined.

(** ** When the retry can run *)

(** Pending safety checks lead to a second agent run only if the value
    stored under ["pending_safety_checks"] is itself a dictionary with a
    key of that name; for every other value, whatever the agent would
    answer, the retry raises a [TypeError] or a [KeyError]. *)
Theorem retry_needs_nested_key
    (run : Runner) (r : RunResult) (before : list Item) (last : Item) (s : Session) :
  to_input_list r = (before ++ [last])%list ->
  Py.truthy (Py.get_val last "pending_safety_checks") = true ->
  (forall d, Py.get_val last "pending_safety_checks" = Py.PDict d ->
             Py.get d "pending_safety_checks" = None) ->
  exists e,
    result_of (retry_safety_checks run r s) = raised e
    /\ (Py.exc_class e = "TypeError" \/ Py.exc_class e = "KeyError").
Proof.
  intros Hlist Htrue Hnested.
  unfold retry_safety_checks, bind.
  rewrite Hlist, index_last_app, Htrue. cbn [log update].
  destruct (Py.get_val last "pending_safety_checks") as [|b|z|str|l|d] eqn:Hv;
    cbn [Py.del_item raise result_of fst];
    try (eexists; split; [reflexivity | left; reflexivity]).
  specialize (Hnested d eq_refl). apply del_none_get in Hnested.
  rewrite Hnested. cbn [raise result_of fst].
  eexists; split; [reflexivity | right; reflexivity].
Qed.

Lemma retry_needs_nested_key_witness :
  exists e,
    result_of
      (retry_safety_checks (answer "Done.")
         {| final_output := "Form submitted successfully.";
            to_input_list :=
              [[("pending_safety_checks",
                 Py.PDict [("id", Py.PStr "sc_1"); ("code", Py.PStr "irrelevant_domain")])]] |}
         blank)
    = raised e
    /\ (Py.exc_class e = "TypeError" \/ Py.exc_class e = "KeyError").
Proof.
  apply (retry_needs_nested_key (answer "Done.")
           {| final_output := "Form submitted successfully.";
              to_input_list :=
                [[("pending_safety_checks",
                   Py.PDict [("id", Py.PStr "sc_1");
                             ("code", Py.PStr "irrelevant_domain")])]] |}
           []
           [("pending_safety_checks",
             Py.PDict [("id", Py.PStr "sc_1"); ("code", Py.PStr "irrelevant_domain")])]
           blank).
  - reflexivity.
  - reflexivity.
  - intros d H. injection H as <-. reflexivity.
Defined.

(** ** The log is never read *)

Lemma Status_eqb_to_eq (a b : Status) : Status_eqb a b = true -> a = b.
Proof. destruct a, b; simpl; congruence. Qed.

Lemma step_ignores_log (o : Op) (s : Session) (entries : list LogEntry) :
  snd (step o (with_log_entries entries s)) = snd (step o s)
  /\ without_log (fst (step o (with_log_entries entries s)))
     = without_log (fst (step o s)).
Proof.
  unfold without_log.
  destruct s as [cr em iid st le comp flag pr fld col].
  destruct o; session_cases; split; reflexivity.
Qed.

(** [cleanup] stops nothing in the orchestrator: the status and the
    handle stay, and every operation applied afterwards assigns the same
    statuses and leaves the same session, log apart, as without it. *)
Theorem cleanup_stops_nothing (stop : option Py.Exc) (o : Op) (s : Session) :
  let cleaned := session_of (cleanup stop s) in
  status cleaned = status s
  /\ computer cleaned = computer s
  /\ snd (step o cleaned) = snd (step o s)
  /\ without_log (fst (step o cleaned)) = without_log (fst (step o s)).
Proof.
  intros cleaned. subst cleaned. rewrite cleanup_only_logs.
  cbn [session_of fst snd].
  split; [reflexivity|]. split; [reflexivity|].
  apply step_ignores_log.
Qed.

(** ** The driver and the service *)

(** [run_automation] answers success exactly when it leaves the session
    completed or waiting for input. *)
Theorem run_automation_reports_status (env : InitOutcome) (run : Runner) (s : Session) :
  exists res,
    result_of (run_automation env run s) = ok res
    /\ (success_of res = true
        <-> status (session_of (run_automation env run s)) = completed
            \/ status (session_of (run_automation env run s)) = waiting_for_input).
Proof.
  pose proof (run_automation_outcomes env run s) as H. cbv zeta in H.
  destruct (result_of (run_automation env run s)) as [res|e]; [|now elim H].
  exists res. split; [reflexivity|].
  destruct res as [b|f p|[|] m|[b|f p|b m|h]]; try now elim H.
  - rewrite H. cbn. split; [auto | reflexivity].
  - cbn. split; [discriminate|].
    destruct H as [H|(_ & H & _)]; rewrite H; intros [E|E]; discriminate E.
  - destruct H as [H _]. rewrite H. cbn. split; [auto | reflexivity].
Qed.

Lemma run_automation_reports_status_witness :
  exists res,
    result_of (run_automation (init_ok "inst-1") (answer "Done.")
                 (__init__ (loaded example_credentials example_email)))
    = ok res
    /\ (success_of res = true
        <-> status (session_of (run_automation (init_ok "inst-1") (answer "Done.")
                                  (__init__ (loaded example_credentials example_email))))
            = completed
            \/ status (session_of (run_automation (init_ok "inst-1") (answer "Done.")
                                     (__init__ (loaded example_credentials example_email))))
               = waiting_for_input).
Proof.
  exact (run_automation_reports_status (init_ok "inst-1") (answer "Done.")
           (__init__ (loaded example_credentials example_email))).
Defined.

(** After the background task the service takes a new start, unless the
    run failed on a missing email body: then the status stays [logged_in]
    and [start_automation] goes on answering that a run is in progress. *)
Theorem service_restart_after_run
    (l : LoadOutcome) (env : InitOutcome) (run : Runner) (stop : option Py.Exc) :
  exists s,
    App.run_automation l env run stop = Some s
    /\ (snd (App.start_automation (Some s)) = true
        \/ (status s = logged_in
            /\ email_body_of (__init__ l) = ""
            /\ App.start_automation (Some s)
               = (App.JSONResponse 400 "Automation is already running", false))).
Proof.
  pose proof (run_automation_outcomes env run (__init__ l)) as H. cbv zeta in H.
  unfold App.run_automation, App.start_automation.
  unfold result_of, session_of in H.
  destruct (run_automation env run (__init__ l)) as [[[res|e] s] t];
    cbn [fst snd] in H; [|now elim H].
  exists s. split; [reflexivity|].
  destruct res as [b|f p|[|] m|[b|f p|b m|h]]; try now elim H.
  - left. now rewrite H.
  - destruct H as [H|(_ & H & Hb)].
    + left. now rewrite H.
    + right. rewrite H. repeat split. exact Hb.
  - left. destruct H as [H _]. now rewrite H.
Qed.

(** Stopping the automation does not free the service: [start_automation]
    answers after [stop_automation] what it answered before.
    [stop_automation] itself answers 404 when no automation was started
    and that the automation was stopped otherwise, also when the stop of
    the remote instance failed. *)
Theorem stop_does_not_free_start (inst : option Session) (stop : option Py.Exc) :
  App.start_automation (snd (App.stop_automation inst stop))
  = App.start_automation inst
  /\ fst (App.stop_automation inst stop)
     = match inst with
       | Some _ => App.Message "Automation stopped successfully"
       | None => App.JSONResponse 404 "No automation has been started"
       end.
Proof.
  destruct inst as [s|]; [|split; reflexivity].
  unfold App.stop_automation. rewrite cleanup_only_logs. split; reflexivity.
Qed.

(** What the [provide-input] handler answers.  A rejection leaves the
    session as it was, without a log entry; [waiting_for_input] is
    answered exactly when the session is left waiting for the field named
    in the answer; every other outcome, a continuation that ended in
    [error] included, is answered with [continuing]; a 500 is never
    sent. *)
Theorem provide_input_answers
    (inst : option Session) (input_value : option string) (run : Runner) :
  match App.provide_human_input inst input_value run with
  | (App.JSONResponse code _, inst') => inst' = inst /\ code <> 500
  | (App.WaitingForInput field _, Some s') =>
      status s' = waiting_for_input /\ human_input_field s' = field
  | (App.Continuing, Some s') =>
      status s' = form_filled \/ status s' = error
      \/ (status s' = waiting_for_input /\ computer s' = None)
  | _ => False
  end.
Proof.
  unfold App.provide_human_input.
  destruct inst as [s|]; [|split; [reflexivity | discriminate]].
  destruct s as [cr em iid st le comp flag pr fld col].
  cbn [status].
  destruct (Status_eqb st waiting_for_input) eqn:Est; cbn [negb];
    [|split; [reflexivity | discriminate]].
  apply Status_eqb_to_eq in Est. subst st.
  destruct input_value as [v|]; [|split; [reflexivity | discriminate]].
  destruct (String.eqb v ""); [split; [reflexivity | discriminate]|].
  session_cases; auto;
    match goal with
    | H : context [Status_eqb _ _] |- _ => cbv in H; discriminate H
    end.
Qed.

Lemma continuation_completes
    (v : string) (run : Runner) (s : Session) (c : Computer) (r : RunResult) :
  computer s = Some c ->
  status s = waiting_for_input ->
  agent_answers run
    (prompt_input
       (continuation_prompt (email_body_of s)
          (human_inputs_text
             (Py.set (human_inputs_collected s) (human_input_field s) v)))) r ->
  PyStr.contains marker (final_output r) = false ->
  exists s' t,
    provide_human_input v run s = (ok (RMessage true "Form filled successfully"), s', t)
    /\ status s' = form_filled.
Proof.
  intros Hc Hst Hans Hm.
  destruct Hans; unfold_methods; rewrite Hc, Hst; cbn [Status_eqb negb];
    use_answer; rewrite Hm; use_answer; eexists; eexists; split; reflexivity.
Qed.

(** A run that needed human input ends in [form_filled], and there the
    service is stuck: the handler answers [continuing], after which
    [start_automation] reports a run in progress and [provide-input]
    reports that no input is awaited, for good. *)
Theorem service_stuck_after_human_input
    (v : string) (run : Runner) (s : Session) (c : Computer) (r : RunResult) :
  computer s = Some c ->
  status s = waiting_for_input ->
  v <> "" ->
  agent_answers run
    (prompt_input
       (continuation_prompt (email_body_of s)
          (human_inputs_text
             (Py.set (human_inputs_collected s) (human_input_field s) v)))) r ->
  PyStr.contains marker (final_output r) = false ->
  exists s',
    App.provide_human_input (Some s) (Some v) run = (App.Continuing, Some s')
    /\ status s' = form_filled
    /\ App.start_automation (Some s')
       = (App.JSONResponse 400 "Automation is already running", false)
    /\ (forall v' run',
           App.provide_human_input (Some s') v' run'
           = (App.JSONResponse 400 "Automation is not waiting for input", Some s')).
Proof.
  intros Hc Hst Hv Hans Hm.
  destruct (continuation_completes v run s c r Hc Hst Hans Hm) as (s' & t & Hrun & Hst').
  exists s'. apply String.eqb_neq in Hv.
  unfold App.provide_human_input, App.start_automation.
  rewrite Hst, Hv, Hrun, Hst'. cbn [Status_eqb negb App.still_running].
  repeat split.
Qed.

Lemma service_stuck_after_human_input_witness :
  exists s',
    App.provide_human_input (Some waiting) (Some "Plumbing")
      (answer "Form submitted successfully.")
    = (App.Continuing, Some s')
    /\ App.start_automation (Some s')
       = (App.JSONResponse 400 "Automation is already running", false).
Proof.
  destruct (service_stuck_after_human_input "Plumbing"
              (answer "Form submitted successfully.") waiting
              {| instance := Some "inst-1" |}
              {| final_output := "Form submitted successfully.";
                 to_input_list := [[("role", Py.PStr "assistant")]] |})
    as (s' & Hrun & _ & Hstart & _).
  - reflexivity.
  - reflexivity.
  - discriminate.
  - exact (answers_at_once
             (answer "Form submitted successfully.")
             (prompt_input
                (continuation_prompt (email_body_of waiting)
                   (human_inputs_text
                      (Py.set (human_inputs_collected waiting)
                         (human_input_field waiting) "Plumbing"))))
             {| final_output := "Form submitted successfully.";
                to_input_list := [[("role", Py.PStr "assistant")]] |}
             [("role", Py.PStr "assistant")] []
             eq_refl eq_refl eq_refl).
  - reflexivity.
  - exists s'. split; assumption.
Defined.

(** ** The remote desktop adapter *)

Lemma lower_char_idem (c : ascii) :
  Ubuntu.lower_char (Ubuntu.lower_char c) = Ubuntu.lower_char c.
Proof. destruct c as [[] [] [] [] [] [] [] []]; reflexivity. Qed.

Lemma lower_idem (s : string) : Ubuntu.lower (Ubuntu.lower s) = Ubuntu.lower s.
Proof.
  induction s as [|c s IH]; [reflexivity|].
  cbn [Ubuntu.lower]. now rewrite lower_char_idem, IH.
Qed.

(** Every entry of the key table can be hit: its key maps to its value.
    Keys are matched without regard to case, and one key is sent for each
    key pressed. *)
Theorem keypress_uses_table :
  (forall k v, In (k, v) Ubuntu.CUA_KEY_TO_SCRAPYBARA_KEY -> Ubuntu.mapped_key k = v)
  /\ (forall key, Ubuntu.mapped_key (Ubuntu.lower key) = Ubuntu.mapped_key key)
  /\ (forall keys, length (Ubuntu.keypress keys) = length keys).
Proof.
  split; [|split].
  - intros k v H. unfold Ubuntu.CUA_KEY_TO_SCRAPYBARA_KEY in H. cbn [In] in H.
    repeat (destruct H as [H|H]; [injection H as <- <-; reflexivity|]).
    contradiction.
  - intros key. unfold Ubuntu.mapped_key. now rewrite lower_idem.
  - intros keys. apply length_map.
Qed.

Lemma keypress_uses_table_witness :
  Ubuntu.keypress ["ENTER"; "Ctrl"; "ArrowDown"] = ["Return"; "ctrl"; "Down"]
  /\ Ubuntu.mapped_key "pagedown" = "Page_Down".
Proof.
  split; [reflexivity|].
  apply (proj1 keypress_uses_table "pagedown" "Page_Down").
  cbn. do 16 right. left. reflexivity.
Defined.

(** [scroll] sends the amounts divided by 20 and rounded down: a scroll
    of less than 20 forward is sent as 0, one of at most 20 backward as
    -1. *)
Theorem scroll_rounds_down (scroll_x scroll_y : Z) :
  (20 * fst (Ubuntu.scroll scroll_x scroll_y) <= scroll_x
   < 20 * fst (Ubuntu.scroll scroll_x scroll_y) + 20)%Z
  /\ (20 * snd (Ubuntu.scroll scroll_x scroll_y) <= scroll_y
      < 20 * snd (Ubuntu.scroll scroll_x scroll_y) + 20)%Z
  /\ ((0 <= scroll_x < 20)%Z -> fst (Ubuntu.scroll scroll_x scroll_y) = 0%Z)
  /\ ((-20 <= scroll_x < 0)%Z -> fst (Ubuntu.scroll scroll_x scroll_y) = (-1)%Z).
Proof.
  unfold Ubuntu.scroll. cbn [fst snd].
  pose proof (Z.div_mod scroll_x 20 ltac:(lia)).
  pose proof (Z.mod_pos_bound scroll_x 20 ltac:(lia)).
  pose proof (Z.div_mod scroll_y 20 ltac:(lia)).
  pose proof (Z.mod_pos_bound scroll_y 20 ltac:(lia)).
  repeat split; lia.
Qed.

Lemma scroll_rounds_down_witness :
  fst (Ubuntu.scroll 19 0) = 0%Z /\ fst (Ubuntu.scroll (-1) 0) = (-1)%Z.
Proof.
  split.
  - apply (proj1 (proj2 (proj2 (scroll_rounds_down 19 0)))). lia.
  - apply (proj2 (proj2 (proj2 (scroll_rounds_down (-1) 0)))). lia.
Defined.

Lemma comprehension_all {A B E} (f : A -> E + B) (l : list A) (bs : list B) :
  Ubuntu.comprehension f l = inr bs ->
  length bs = length l /\ Forall (fun a => exists b, f a = inr b) l.
Proof.
  revert bs; induction l as [|a l IH]; intros bs H; cbn [Ubuntu.comprehension] in H.
  - injection H as <-. split; [reflexivity | constructor].
  - destruct (f a) as [e|b] eqn:Ea; [discriminate|].
    destruct (Ubuntu.comprehension f l) as [e|bs']; [discriminate|].
    injection H as <-. destruct (IH bs' eq_refl) as [Hl Hall].
    split; [cbn; now rewrite Hl | constructor; eauto].
Qed.

(** A drag goes through only for a path whose points all have the shape
    of the first: tuples (or lists after a first tuple) with two
    coordinates, or dictionaries with [x] and [y]; one point is then sent
    for each point given.  A path that starts with a list, the shape JSON
    gives a pair, is refused with [ValueError]. *)
Theorem drag_needs_uniform_path :
  (forall path new_path,
      Ubuntu.drag path = inr (Some new_path) ->
      length new_path = length path
      /\ ((exists c rest, path = Ubuntu.tuple_point c :: rest)
          /\ Forall (fun p => exists x y rest,
                         p = Ubuntu.tuple_point (x :: y :: rest)
                         \/ p = Ubuntu.list_point (x :: y :: rest)) path
          \/ Forall (fun p => exists d x y,
                         p = Ubuntu.dict_point d
                         /\ Py.get d "x" = Some x /\ Py.get d "y" = Some y) path))
  /\ (forall coords rest,
         Ubuntu.drag (Ubuntu.list_point coords :: rest) = inl Ubuntu.ValueError)
  /\ Ubuntu.drag [] = inr None.
Proof.
  split; [|split; reflexivity].
  intros path new_path H.
  destruct path as [|[c|c|d|z] rest]; try discriminate H.
  - cbv beta iota delta [Ubuntu.drag] in H.
    destruct (Ubuntu.comprehension Ubuntu.by_position (Ubuntu.tuple_point c :: rest))
      as [e|np] eqn:E; [discriminate|].
    injection H as <-. destruct (comprehension_all _ _ _ E) as [Hl Hall].
    split; [exact Hl|]. left. split; [eauto|].
    eapply Forall_impl; [|exact Hall].
    intros p [xy Hp]. unfold Ubuntu.by_position in Hp.
    destruct p as [[|x [|y l]]|[|x [|y l]]|d|z]; try discriminate Hp; eauto 6.
  - cbv beta iota delta [Ubuntu.drag] in H.
    destruct (Ubuntu.comprehension Ubuntu.by_name (Ubuntu.dict_point d :: rest))
      as [e|np] eqn:E; [discriminate|].
    injection H as <-. destruct (comprehension_all _ _ _ E) as [Hl Hall].
    split; [exact Hl|]. right.
    eapply Forall_impl; [|exact Hall].
    intros p [xy Hp]. unfold Ubuntu.by_name in Hp.
    destruct p as [l|l|d'|z]; try discriminate Hp.
    destruct (Py.get d' "x") as [x|] eqn:Ex; [|discriminate].
    destruct (Py.get d' "y") as [y|] eqn:Ey; [|discriminate].
    eauto 6.
Qed.

Lemma drag_needs_uniform_path_witness :
  Ubuntu.drag [Ubuntu.dict_point [("x", 10%Z); ("y", 20%Z)];
               Ubuntu.dict_point [("y", 5%Z); ("x", 30%Z)]]
  = inr (Some [(10%Z, 20%Z); (30%Z, 5%Z)])
  /\ length [(10%Z, 20%Z); (30%Z, 5%Z)] = 2.
Proof.
  assert (H : Ubuntu.drag [Ubuntu.dict_point [("x", 10%Z); ("y", 20%Z)];
                           Ubuntu.dict_point [("y", 5%Z); ("x", 30%Z)]]
              = inr (Some [(10%Z, 20%Z); (30%Z, 5%Z)])) by reflexivity.
  split; [exact H|].
  exact (proj1 (proj1 drag_needs_uniform_path _ _ H)).
Defined.

Ltac calls_made :=
  cbn [hd_error In Ubuntu.calls snd fst];
  repeat match goal with
         | |- _ /\ _ => split
         | |- forall _, _ => intro
         | |- ~ _ => intro
         | H : _ \/ _ |- _ => destruct H
         | H : False |- _ => contradiction
         | H : _ = _ |- _ => discriminate H
         | |- _ = _ => reflexivity
         | |- In _ _ => cbn [In]; auto 10
         | |- _ \/ _ => solve [auto 10]
         end.

(** With an instance id the adapter only finds and resumes: it never
    starts an instance and never starts the browser.  Without one it only
    starts: it never looks an instance up or resumes one, and it returns
    only after the call that starts the browser. *)
Theorem initialize_resumes_or_starts
    (b : Ubuntu.Backend) (verbose : bool) (instance_id : option string) :
  let made := Ubuntu.calls (snd (Ubuntu.initialize b verbose instance_id Ubuntu.fresh)) in
  match Ubuntu.given instance_id with
  | Some id =>
      ~ In Ubuntu.call_start_ubuntu made
      /\ ~ In Ubuntu.call_browser_start made
      /\ hd_error made = Some (Ubuntu.call_get id)
  | None =>
      ~ In Ubuntu.call_resume made
      /\ (forall id, ~ In (Ubuntu.call_get id) made)
      /\ hd_error made = Some Ubuntu.call_start_ubuntu
      /\ (fst (Ubuntu.initialize b verbose instance_id Ubuntu.fresh) = Ubuntu.returns tt ->
          In Ubuntu.call_browser_start made)
  end.
Proof.
  unfold Ubuntu.initialize.
  destruct (Ubuntu.given instance_id) as [id|];
    cbv [Ubuntu.then_ Ubuntu.call Ubuntu.done Ubuntu.set_instance Ubuntu.fresh
         Ubuntu.calls Ubuntu.adapter_instance app fst snd].
  - destruct (Ubuntu.get b id) as [[inst|]|e|e];
      [destruct (Ubuntu.resume b) as [[]|e|e], verbose;
       try destruct (Ubuntu.get_stream_url b) as [u|e'|e'];
       try destruct (PyStr.contains "Instance is not paused" _) | | |];
      calls_made.
  - destruct (Ubuntu.start_ubuntu b) as [inst|e|e];
      [destruct verbose;
       try destruct (Ubuntu.get_stream_url b) as [u|e'|e'];
       try destruct (Ubuntu.browser_start b) as [[]|e|e] | |];
      calls_made.
Qed.

Lemma initialize_resumes_or_starts_witness :
  In Ubuntu.call_browser_start
     (Ubuntu.calls
        (snd (Ubuntu.initialize
                {| Ubuntu.get := fun _ => Ubuntu.returns None;
                   Ubuntu.resume := Ubuntu.returns tt;
                   Ubuntu.get_stream_url := Ubuntu.returns "https://stream";
                   Ubuntu.start_ubuntu := Ubuntu.returns "inst-8";
                   Ubuntu.browser_start := Ubuntu.returns tt |}
                true None Ubuntu.fresh))).
Proof.
  pose proof (initialize_resumes_or_starts
                {| Ubuntu.get := fun _ => Ubuntu.returns None;
                   Ubuntu.resume := Ubuntu.returns tt;
                   Ubuntu.get_stream_url := Ubuntu.returns "https://stream";
                   Ubuntu.start_ubuntu := Ubuntu.returns "inst-8";
                   Ubuntu.browser_start := Ubuntu.returns tt |}
                true None) as H.
  cbv zeta in H. cbn [Ubuntu.given] in H.
  destruct H as (_ & _ & _ & H). exact (H eq_refl).
Defined.

(** An instance that turns out to be running already is no error: when
    [resume] raises the [ApiError] that says so, [initialize] returns
    with the instance set. *)
Theorem running_instance_is_accepted
    (b : Ubuntu.Backend) (verbose : bool) (instance_id : option string)
    (id inst : string) (e : Py.Exc) :
  Ubuntu.given instance_id = Some id ->
  Ubuntu.get b id = Ubuntu.returns (Some inst) ->
  Ubuntu.resume b = Ubuntu.api_error e ->
  PyStr.contains "Instance is not paused" (Py.exc_str e) = true ->
  Ubuntu.initialize b verbose instance_id Ubuntu.fresh
  = (Ubuntu.returns tt,
     {| Ubuntu.adapter_instance := Some inst;
        Ubuntu.calls := [Ubuntu.call_get id; Ubuntu.call_resume] |}).
Proof.
  intros Hid Hget Hres Hmsg.
  unfold Ubuntu.initialize. rewrite Hid.
  cbv [Ubuntu.then_ Ubuntu.call Ubuntu.done Ubuntu.set_instance Ubuntu.fresh
       Ubuntu.calls Ubuntu.adapter_instance app fst snd].
  rewrite Hget. cbv beta iota. rewrite Hres, Hmsg. reflexivity.
Qed.

Lemma running_instance_is_accepted_witness :
  Ubuntu.initialize
    {| Ubuntu.get := fun _ => Ubuntu.returns (Some "inst-7");
       Ubuntu.resume :=
         Ubuntu.api_error
           {| Py.exc_class := "ApiError";
              Py.exc_str := "status_code: 400, body: Instance is not paused" |};
       Ubuntu.get_stream_url := Ubuntu.returns "https://stream";
       Ubuntu.start_ubuntu := Ubuntu.returns "inst-8";
       Ubuntu.browser_start := Ubuntu.returns tt |}
    true (Some "inst-7") Ubuntu.fresh
  = (Ubuntu.returns tt,
     {| Ubuntu.adapter_instance := Some "inst-7";
        Ubuntu.calls := [Ubuntu.call_get "inst-7"; Ubuntu.call_resume] |}).
Proof.
  apply (running_instance_is_accepted _ true (Some "inst-7") "inst-7" "inst-7"
           {| Py.exc_class := "ApiError";
              Py.exc_str := "status_code: 400, body: Instance is not paused" |});
    reflexivity.
Defined.

(** ** The email reader *)

Lemma first_plain_app (xs a b : list Eml.Message) :
  Eml.first_plain a = Eml.first_plain b ->
  Eml.first_plain (xs ++ a)%list = Eml.first_plain (xs ++ b)%list.
Proof.
  intros H. induction xs as [|x xs IH]; cbn [app Eml.first_plain]; [exact H|].
  destruct (String.eqb (Eml.get_content_type x) "text/plain"); [reflexivity | exact IH].
Qed.

Lemma first_plain_find (l : list Eml.Message) :
  Eml.first_plain l
  = match find (fun p => String.eqb (Eml.get_content_type p) "text/plain") l with
    | Some part => Eml.decode part
    | None => inr ""
    end.
Proof.
  induction l as [|x xs IH]; [reflexivity|].
  cbn [find Eml.first_plain].
  destruct (String.eqb (Eml.get_content_type x) "text/plain"); [reflexivity | exact IH].
Qed.

Lemma first_plain_walk (m : Eml.Message) (k : list Eml.Message) :
  Eml.containers_typed m = true ->
  Eml.first_plain (Eml.walk m ++ k)%list = Eml.first_plain (Eml.leaves m ++ k)%list.
Proof.
  revert k.
  induction m as [c d|c parts IH] using
    (fix F (m : Eml.Message) {struct m} :
       forall (P : Eml.Message -> Prop),
         (forall c d, P (Eml.leaf c d)) ->
         (forall c parts, Forall P parts -> P (Eml.multipart c parts)) -> P m :=
       fun P Hl Hm =>
         match m with
         | Eml.leaf c d => Hl c d
         | Eml.multipart c parts =>
             Hm c parts
                ((fix G (l : list Eml.Message) : Forall P l :=
                    match l with
                    | [] => Forall_nil P
                    | x :: l' => Forall_cons x (F x P Hl Hm) (G l')
                    end) parts)
         end).
  - reflexivity.
  - intros k H. cbn [Eml.containers_typed] in H.
    apply andb_true_iff in H as [Hc Hparts].
    cbn [Eml.walk Eml.leaves app Eml.first_plain Eml.get_content_type].
    apply negb_true_iff in Hc. rewrite Hc.
    revert k. induction IH as [|p parts Hp _ IHparts]; intros k; [reflexivity|].
    cbn [forallb] in Hparts. apply andb_true_iff in Hparts as [Hp1 Hps].
    cbn [flat_map]. rewrite <- !app_assoc.
    rewrite (Hp _ Hp1). 
    apply first_plain_app. apply IHparts. exact Hps.
Qed.

(** The body taken from a multipart message is the text of its first
    [text/plain] part in document order, however deep it is nested and
    whatever follows it; without such a part the body is empty.  A message
    without parts gives its payload, whatever its type. *)
Theorem body_is_first_plain_part :
  (forall subject c parts,
      Eml.containers_typed (Eml.multipart c parts) = true ->
      Eml.extract_email_content subject (Eml.multipart c parts)
      = match
          match find (fun p => String.eqb (Eml.get_content_type p) "text/plain")
                     (Eml.leaves (Eml.multipart c parts))
          with
          | Some part => Eml.decode part
          | None => inr ""
          end
        with
        | inl e => inl e
        | inr body =>
            inr [("subject", match subject with Some s => s | None => "" end);
                 ("body", body)]
        end)
  /\ (forall subject c decoded,
         Eml.extract_email_content subject (Eml.leaf c (inr decoded))
         = inr [("subject", match subject with Some s => s | None => "" end);
                ("body", decoded)]).
Proof.
  split; [|reflexivity].
  intros subject c parts H.
  unfold Eml.extract_email_content. cbn [Eml.is_multipart].
  pose proof (first_plain_walk (Eml.multipart c parts) [] H) as E.
  rewrite !app_nil_r in E. rewrite E, first_plain_find. reflexivity.
Qed.

Lemma body_is_first_plain_part_witness :
  Eml.extract_email_content (Some "New Lead")
    (Eml.multipart "multipart/mixed"
       [Eml.multipart "multipart/alternative"
          [Eml.leaf "text/html" (inr "<p>Acme Corp</p>");
           Eml.leaf "text/plain" (inr "Acme Corp, 123 Main St")];
        Eml.leaf "text/plain" (inr "signature")])
  = inr [("subject", "New Lead"); ("body", "Acme Corp, 123 Main St")].
Proof.
  rewrite (proj1 body_is_first_plain_part (Some "New Lead") "multipart/mixed"
             [Eml.multipart "multipart/alternative"
                [Eml.leaf "text/html" (inr "<p>Acme Corp</p>");
                 Eml.leaf "text/plain" (inr "Acme Corp, 123 Main St")];
              Eml.leaf "text/plain" (inr "signature")] eq_refl).
  reflexivity.
Defined.

(** A multipart message without a [text/plain] part, an HTML-only mail
    for one, is read with an empty body, and a session loaded with what
    was read never gets its form filled: [fill_applicant_form] returns
    failure whatever ran before. *)
Theorem html_only_mail_is_never_filled
    (subject : option string) (c : string) (parts : list Eml.Message)
    (creds : Py.dict string) (ops : list Op) (run : Runner) :
  Eml.containers_typed (Eml.multipart c parts) = true ->
  find (fun p => String.eqb (Eml.get_content_type p) "text/plain")
       (Eml.leaves (Eml.multipart c parts)) = None ->
  exists content,
    Eml.extract_email_content subject (Eml.multipart c parts) = inr content
    /\ Py.get content "body" = Some ""
    /\ result_of
         (fill_applicant_form run
            (fst (run_ops ops (__init__ (loaded creds content)))))
       = ok (RBool false).
Proof.
  intros Hc Hnone.
  pose proof (first_plain_walk (Eml.multipart c parts) [] Hc) as E.
  rewrite !app_nil_r, (first_plain_find (Eml.leaves _)), Hnone in E.
  eexists. split;
    [unfold Eml.extract_email_content; cbn [Eml.is_multipart]; rewrite E; reflexivity|].
  split; [reflexivity|].
  match goal with
  | |- context [run_ops ops ?s0] =>
      pose proof (keeps_email_content _ _ (run_ops_keeps ops s0)) as He;
      set (s := fst (run_ops ops s0)) in *
  end.
  cbn [__init__ _load_data] in He.
  unfold fill_applicant_form, bind, get_self, try_except.
  destruct (computer s); [|reflexivity].
  destruct (negb (Status_eqb (status s) logged_in)); [reflexivity|].
  unfold email_body_of. rewrite He. reflexivity.
Qed.

Lemma html_only_mail_is_never_filled_witness :
  exists content,
    Eml.extract_email_content (Some "New Lead")
      (Eml.multipart "multipart/alternative"
         [Eml.leaf "text/html" (inr "<p>Acme Corp, 123 Main St</p>")])
    = inr content
    /\ result_of (fill_applicant_form (answer "Done.")
                    (fst (run_ops [Initialize (init_ok "inst-1");
                                   Login (answer "Logged in.")]
                                  (__init__ (loaded example_credentials content)))))
       = ok (RBool false).
Proof.
  destruct (html_only_mail_is_never_filled (Some "New Lead") "multipart/alternative"
              [Eml.leaf "text/html" (inr "<p>Acme Corp, 123 Main St</p>")]
              example_credentials
              [Initialize (init_ok "inst-1"); Login (answer "Logged in.")]
              (answer "Done.") eq_refl eq_refl)
    as (content & Hread & _ & Hfill).
  exists content. split; assumption.
Defined.
